(** * MQTT client for Unreal Engine: worker, queues and notification contract

    A shallow embedding of [MQTTClient.cpp] / [MQTTClientWorker.h]:

    - [FMQTTWorker]: the [FRunnable] worker (connection flags, pending
      target, the two MPSC queues, the wake event) with its owner-facing
      methods and the body of [Run].
    - [UMQTTClient]: the UObject wrapper with its PIMPL ([FImpl]) that
      owns at most one worker.
    - [System]: executions of one client, as sequences of owner-context
      calls and worker-thread steps.

    Granularity.  Every method call and every block of the [Run] loop
    body is one atomic step, and steps of the two threads interleave in
    any order.  The [FThreadSafeBool] flags and the [TQueue]s are
    sequentially consistent at that granularity.  Wall-clock waits
    ([WakeEvent->Wait(200)], [Sleep]) only delay a step. *)

From Stdlib Require Import String List ZArith Bool Lia.
Import ListNotations.

(** ** Engine types *)

Definition FString := string.

(** [FString::IsEmpty]. *)
Definition IsEmpty (s : FString) : bool :=
  match s with
  | EmptyString => true
  | String _ _ => false
  end.

(** [int32] values are carried as integers; the code only stores and
    copies them. *)
Definition int32 := Z.

(** The two threads of control: the game thread (owner context) and the
    [FRunnableThread] created by [FMQTTWorker::Start]. *)
Inductive ThreadId := GameThread | WorkerThread.

(** [TWeakObjectPtr<UMQTTClient>]: [Get()] yields the owner or null. *)
Inductive TWeakObjectPtr := Valid | Stale.

Definition Get (p : TWeakObjectPtr) : bool :=
  match p with Valid => true | Stale => false end.

(** [TQueue<T, EQueueMode::Mpsc>]: items leave in the order they entered. *)
Definition TQueue (T : Type) := list T.

Definition Enqueue {T} (x : T) (q : TQueue T) : TQueue T := q ++ [x].

(** [Dequeue] takes the head, and fails on the empty queue; the drain
    loops below match on the queue accordingly. *)

(** ** Notifications *)

Inductive Notification :=
| Connected
| Disconnected (Reason : FString)
| MessageReceived (Topic Payload : FString).

(** One entry per call of a [Notify*] helper: the thread that executed
    the helper, the notification, and whether the weak owner pointer
    resolved, in which case the broadcast was posted to the game thread
    with [AsyncTask]; otherwise the helper returned early. *)
Record NotifyCall := mkNotifyCall {
  caller : ThreadId;
  what : Notification;
  posted : bool
}.

Definition Log := list NotifyCall.

Definition is_Connected (e : NotifyCall) : bool :=
  match what e with Connected => true | _ => false end.

Definition is_Disconnected (e : NotifyCall) : bool :=
  match what e with Disconnected _ => true | _ => false end.

Definition is_MessageReceived (e : NotifyCall) : bool :=
  match what e with MessageReceived _ _ => true | _ => false end.

(** The tasks that reached the game thread. *)
Definition delivered (l : Log) : list Notification :=
  map what (filter posted l).

(** ** Queue items ([MQTTClientWorker.h]) *)

Record FMQTTOutgoing := mkOutgoing {
  Topic : FString;
  Payload : FString;
  QoS : int32;
  bRetain : bool
}.

Record FMQTTSubscriptionRequest := mkSubscriptionRequest {
  TopicFilter : FString;
  SubQoS : int32;
  bSubscribe : bool
}.

(** ** A small monad for member functions

    A method runs on a thread, updates the object and appends to the
    log of [Notify*] calls. *)

Section Exec.
Context {S : Type}.

Definition Exec (A : Type) : Type := ThreadId -> S -> A * S * Log.

Definition ret {A} (a : A) : Exec A := fun _ s => (a, s, []).

Definition bind {A B} (m : Exec A) (f : A -> Exec B) : Exec B :=
  fun th s =>
    match m th s with
    | (a, s1, l1) =>
        match f a th s1 with
        | (b, s2, l2) => (b, s2, l1 ++ l2)
        end
    end.

Definition gets {A} (f : S -> A) : Exec A := fun _ s => (f s, s, []).

Definition modify (f : S -> S) : Exec unit := fun _ s => (tt, f s, []).

Definition this_thread : Exec ThreadId := fun th s => (th, s, []).

Definition tell (e : NotifyCall) : Exec unit := fun _ s => (tt, s, [e]).
End Exec.

Arguments Exec : clear implicits.

Declare Scope exec_scope.
Delimit Scope exec_scope with exec.
Notation "x <- m ;; k" := (bind m (fun x => k))
  (at level 61, m at next level, right associativity) : exec_scope.
Notation "m ;; k" := (bind m (fun _ => k))
  (at level 61, right associativity) : exec_scope.
Local Open Scope exec_scope.

Definition value_of {S A} (r : A * S * Log) : A := fst (fst r).
Definition state_of {S A} (r : A * S * Log) : S := snd (fst r).
Definition log_of {S A} (r : A * S * Log) : Log := snd r.

(** ** FMQTTWorker *)

Module FMQTTWorker.

Record t := mk {
  Owner : TWeakObjectPtr;
  Thread : bool;                      (* FRunnableThread* is non-null *)
  WakeEvent : option bool;            (* FEvent*; the flag is "signaled" *)
  OutgoingMessages : TQueue FMQTTOutgoing;
  SubscriptionRequests : TQueue FMQTTSubscriptionRequest;
  Host : FString;
  Port : int32;
  bUseTLS : bool;
  Username : FString;
  Password : FString;
  ClientId : FString;
  KeepAliveSeconds : int32;
  Socket : bool;                      (* FSocket* is non-null *)
  bStopRequested : bool;
  bConnected : bool;
  bShutdownComplete : bool
}.

Definition set_Thread (v : bool) (w : t) : t :=
  mk (Owner w) v (WakeEvent w) (OutgoingMessages w) (SubscriptionRequests w)
     (Host w) (Port w) (bUseTLS w) (Username w) (Password w) (ClientId w)
     (KeepAliveSeconds w) (Socket w) (bStopRequested w) (bConnected w)
     (bShutdownComplete w).

Definition set_WakeEvent (v : option bool) (w : t) : t :=
  mk (Owner w) (Thread w) v (OutgoingMessages w) (SubscriptionRequests w)
     (Host w) (Port w) (bUseTLS w) (Username w) (Password w) (ClientId w)
     (KeepAliveSeconds w) (Socket w) (bStopRequested w) (bConnected w)
     (bShutdownComplete w).

Definition set_OutgoingMessages (v : TQueue FMQTTOutgoing) (w : t) : t :=
  mk (Owner w) (Thread w) (WakeEvent w) v (SubscriptionRequests w)
     (Host w) (Port w) (bUseTLS w) (Username w) (Password w) (ClientId w)
     (KeepAliveSeconds w) (Socket w) (bStopRequested w) (bConnected w)
     (bShutdownComplete w).

Definition set_SubscriptionRequests (v : TQueue FMQTTSubscriptionRequest)
    (w : t) : t :=
  mk (Owner w) (Thread w) (WakeEvent w) (OutgoingMessages w) v
     (Host w) (Port w) (bUseTLS w) (Username w) (Password w) (ClientId w)
     (KeepAliveSeconds w) (Socket w) (bStopRequested w) (bConnected w)
     (bShutdownComplete w).

Definition set_Host (v : FString) (w : t) : t :=
  mk (Owner w) (Thread w) (WakeEvent w) (OutgoingMessages w)
     (SubscriptionRequests w) v (Port w) (bUseTLS w) (Username w)
     (Password w) (ClientId w) (KeepAliveSeconds w) (Socket w)
     (bStopRequested w) (bConnected w) (bShutdownComplete w).

Definition set_Port (v : int32) (w : t) : t :=
  mk (Owner w) (Thread w) (WakeEvent w) (OutgoingMessages w)
     (SubscriptionRequests w) (Host w) v (bUseTLS w) (Username w)
     (Password w) (ClientId w) (KeepAliveSeconds w) (Socket w)
     (bStopRequested w) (bConnected w) (bShutdownComplete w).

Definition set_bUseTLS (v : bool) (w : t) : t :=
  mk (Owner w) (Thread w) (WakeEvent w) (OutgoingMessages w)
     (SubscriptionRequests w) (Host w) (Port w) v (Username w)
     (Password w) (ClientId w) (KeepAliveSeconds w) (Socket w)
     (bStopRequested w) (bConnected w) (bShutdownComplete w).

Definition set_Username (v : FString) (w : t) : t :=
  mk (Owner w) (Thread w) (WakeEvent w) (OutgoingMessages w)
     (SubscriptionRequests w) (Host w) (Port w) (bUseTLS w) v
     (Password w) (ClientId w) (KeepAliveSeconds w) (Socket w)
     (bStopRequested w) (bConnected w) (bShutdownComplete w).

Definition set_Password (v : FString) (w : t) : t :=
  mk (Owner w) (Thread w) (WakeEvent w) (OutgoingMessages w)
     (SubscriptionRequests w) (Host w) (Port w) (bUseTLS w) (Username w)
     v (ClientId w) (KeepAliveSeconds w) (Socket w)
     (bStopRequested w) (bConnected w) (bShutdownComplete w).

Definition set_ClientId (v : FString) (w : t) : t :=
  mk (Owner w) (Thread w) (WakeEvent w) (OutgoingMessages w)
     (SubscriptionRequests w) (Host w) (Port w) (bUseTLS w) (Username w)
     (Password w) v (KeepAliveSeconds w) (Socket w)
     (bStopRequested w) (bConnected w) (bShutdownComplete w).

Definition set_KeepAliveSeconds (v : int32) (w : t) : t :=
  mk (Owner w) (Thread w) (WakeEvent w) (OutgoingMessages w)
     (SubscriptionRequests w) (Host w) (Port w) (bUseTLS w) (Username w)
     (Password w) (ClientId w) v (Socket w)
     (bStopRequested w) (bConnected w) (bShutdownComplete w).

Definition set_Socket (v : bool) (w : t) : t :=
  mk (Owner w) (Thread w) (WakeEvent w) (OutgoingMessages w)
     (SubscriptionRequests w) (Host w) (Port w) (bUseTLS w) (Username w)
     (Password w) (ClientId w) (KeepAliveSeconds w) v
     (bStopRequested w) (bConnected w) (bShutdownComplete w).

Definition set_bStopRequested (v : bool) (w : t) : t :=
  mk (Owner w) (Thread w) (WakeEvent w) (OutgoingMessages w)
     (SubscriptionRequests w) (Host w) (Port w) (bUseTLS w) (Username w)
     (Password w) (ClientId w) (KeepAliveSeconds w) (Socket w)
     v (bConnected w) (bShutdownComplete w).

Definition set_bConnected (v : bool) (w : t) : t :=
  mk (Owner w) (Thread w) (WakeEvent w) (OutgoingMessages w)
     (SubscriptionRequests w) (Host w) (Port w) (bUseTLS w) (Username w)
     (Password w) (ClientId w) (KeepAliveSeconds w) (Socket w)
     (bStopRequested w) v (bShutdownComplete w).

(** The constructor: [Port(1883)], [KeepAliveSeconds(60)], all flags
    false, empty strings and queues, and an event taken from the pool. *)
Definition new (InOwner : TWeakObjectPtr) : t :=
  mk InOwner false (Some false) [] [] EmptyString 1883%Z false
     EmptyString EmptyString EmptyString 60%Z false false false false.

(** *** Helpers that forward events to the owner *)

(** Each helper resolves [Owner.Get()]; on null it returns, otherwise
    it posts the broadcast to the game thread. *)
Definition Notify (n : Notification) : Exec t unit :=
  th <- this_thread ;;
  OwnerPtr <- gets (fun w => Get (Owner w)) ;;
  tell (mkNotifyCall th n OwnerPtr).

Definition NotifyConnected : Exec t unit := Notify Connected.

Definition NotifyDisconnected (Reason : FString) : Exec t unit :=
  Notify (Disconnected Reason).

Definition NotifyMessageReceived (Topic Payload : FString) : Exec t unit :=
  Notify (MessageReceived Topic Payload).

(** [WakeWorker]: trigger the event when there is one. *)
Definition Trigger (w : t) : t :=
  match WakeEvent w with
  | Some _ => set_WakeEvent (Some true) w
  | None => w
  end.

Definition WakeWorker : Exec t unit := modify Trigger.

(** *** Owner-facing methods *)

(** [Start]: [created] is the outcome of [FRunnableThread::Create]. *)
Definition Start (created : bool) : Exec t bool :=
  started <- gets Thread ;;
  if started then ret true
  else
    modify (set_Thread created) ;;
    if created then ret true else ret false.

Definition Stop : Exec t unit :=
  modify (set_bStopRequested true) ;;
  modify Trigger.

(** [Shutdown]: stop, wake, join or kill the thread, release the
    socket.  The bounded wait for [bShutdownComplete] has no effect on
    the fields other than letting the thread finish. *)
Definition Shutdown : Exec t unit :=
  Stop ;;
  modify (set_bStopRequested true) ;;
  modify Trigger ;;
  modify (set_Thread false) ;;
  modify (set_Socket false).

Definition Connect (InHost : FString) (InPort : int32) (bInUseTLS : bool)
    : Exec t bool :=
  modify (set_Host InHost) ;;
  modify (set_Port InPort) ;;
  modify (set_bUseTLS bInUseTLS) ;;
  WakeWorker ;;
  ret true.

Definition Disconnect (bForce : bool) : Exec t unit :=
  modify (set_Host EmptyString) ;;
  connected <- gets bConnected ;;
  (if connected then
     modify (set_bConnected false) ;;
     NotifyDisconnected "Client requested disconnect"%string
   else ret tt) ;;
  WakeWorker.

Definition Publish (InTopic InPayload : FString) (InQoS : int32)
    (InRetain : bool) : Exec t bool :=
  modify (fun w =>
    set_OutgoingMessages
      (Enqueue (mkOutgoing InTopic InPayload InQoS InRetain)
               (OutgoingMessages w)) w) ;;
  WakeWorker ;;
  ret true.

Definition Subscribe (InFilter : FString) (InQoS : int32) : Exec t bool :=
  modify (fun w =>
    set_SubscriptionRequests
      (Enqueue (mkSubscriptionRequest InFilter InQoS true)
               (SubscriptionRequests w)) w) ;;
  WakeWorker ;;
  ret true.

Definition Unsubscribe (InFilter : FString) : Exec t bool :=
  modify (fun w =>
    set_SubscriptionRequests
      (Enqueue (mkSubscriptionRequest InFilter 0%Z false)
               (SubscriptionRequests w)) w) ;;
  WakeWorker ;;
  ret true.

Definition IsConnected (w : t) : bool := bConnected w.

Definition SetClientId (InClientId : FString) : Exec t unit :=
  modify (set_ClientId InClientId).

Definition SetCredentials (InUsername InPassword : FString) : Exec t unit :=
  modify (set_Username InUsername) ;;
  modify (set_Password InPassword).

Definition SetKeepAlive (InKeepAliveSeconds : int32) : Exec t unit :=
  modify (set_KeepAliveSeconds InKeepAliveSeconds).

(** *** The body of the [Run] loop *)

(** [WakeEvent->Wait(200)]: returns on trigger or timeout; the event
    is auto-reset. *)
Definition Wait : Exec t unit :=
  modify (fun w =>
    match WakeEvent w with
    | Some _ => set_WakeEvent (Some false) w
    | None => w
    end).

(** [if (!bConnected && !Host.IsEmpty())]: the stub marks the worker
    connected and notifies. *)
Definition PendingConnect : Exec t unit :=
  connected <- gets bConnected ;;
  host_empty <- gets (fun w => IsEmpty (Host w)) ;;
  if negb connected && negb host_empty then
    modify (set_bConnected true) ;;
    NotifyConnected
  else ret tt.

(** [while (OutgoingMessages.Dequeue(Out))]: echo each publish, head
    first, until [Dequeue] fails on the empty queue. *)
Fixpoint EchoAll (q : TQueue FMQTTOutgoing) : Exec t unit :=
  match q with
  | [] => ret tt
  | Out :: rest =>
      modify (set_OutgoingMessages rest) ;;
      NotifyMessageReceived (Topic Out) (Payload Out) ;;
      EchoAll rest
  end.

Definition ProcessOutgoing : Exec t unit :=
  q <- gets OutgoingMessages ;;
  EchoAll q.

(** [while (SubscriptionRequests.Dequeue(SubReq))]: log only. *)
Definition ProcessSubscriptions : Exec t unit :=
  modify (set_SubscriptionRequests []).

Definition RunBody : Exec t unit :=
  Wait ;;
  PendingConnect ;;
  ProcessOutgoing ;;
  ProcessSubscriptions.

Definition set_bShutdownComplete (v : bool) (w : t) : t :=
  mk (Owner w) (Thread w) (WakeEvent w) (OutgoingMessages w)
     (SubscriptionRequests w) (Host w) (Port w) (bUseTLS w) (Username w)
     (Password w) (ClientId w) (KeepAliveSeconds w) (Socket w)
     (bStopRequested w) (bConnected w) v.

(** [Run], with no other thread acting on the worker: the loop tests
    [bStopRequested] before each pass; on exit it sets
    [bShutdownComplete] and returns 0.  [fuel] bounds the number of
    tests, and [None] says that the loop was still running at the
    bound. *)
Fixpoint Run (fuel : nat) : Exec t (option Z) :=
  match fuel with
  | O => ret None
  | S n =>
      stop <- gets bStopRequested ;;
      if stop then
        modify (set_bShutdownComplete true) ;;
        ret (Some 0%Z)
      else
        RunBody ;;
        Run n
  end.

End FMQTTWorker.

(** ** UMQTTClient *)

Module UMQTTClient.

(** The PIMPL: it owns the worker, which is null until [Connect]. *)
Record FImpl := mkImpl { Worker : option FMQTTWorker.t }.

Record t := mk {
  Impl : option FImpl;                (* TUniquePtr<FImpl> *)
  Broker : FString;
  Port : int32;
  bUseTLS : bool;
  Username : FString;
  Password : FString;
  ClientId : FString;
  KeepAliveSeconds : int32;
  bConnected : bool
}.

(** A call on the client returns [None] when it dereferences a null
    pointer; otherwise the result, the client and the [Notify*] calls
    made while it ran. *)
Definition Call (A : Type) : Type := ThreadId -> t -> option (A * t * Log).

Definition set_Impl (v : option FImpl) (c : t) : t :=
  mk v (Broker c) (Port c) (bUseTLS c) (Username c) (Password c)
     (ClientId c) (KeepAliveSeconds c) (bConnected c).

Definition set_target (a : FString) (p : int32) (tls : bool) (c : t) : t :=
  mk (Impl c) a p tls (Username c) (Password c)
     (ClientId c) (KeepAliveSeconds c) (bConnected c).

Definition set_credentials (u p : FString) (c : t) : t :=
  mk (Impl c) (Broker c) (Port c) (bUseTLS c) u p
     (ClientId c) (KeepAliveSeconds c) (bConnected c).

Definition set_ClientId (v : FString) (c : t) : t :=
  mk (Impl c) (Broker c) (Port c) (bUseTLS c) (Username c) (Password c)
     v (KeepAliveSeconds c) (bConnected c).

Definition set_KeepAliveSeconds (v : int32) (c : t) : t :=
  mk (Impl c) (Broker c) (Port c) (bUseTLS c) (Username c) (Password c)
     (ClientId c) v (bConnected c).

(** The constructor: [Impl(MakeUnique<FImpl>())] with a null worker. *)
Definition new : t :=
  mk (Some (mkImpl None)) EmptyString 1883%Z false
     EmptyString EmptyString EmptyString 60%Z false.

(** The guard [Impl && Impl->Worker]. *)
Definition worker (c : t) : option FMQTTWorker.t :=
  match Impl c with
  | Some impl => Worker impl
  | None => None
  end.

(** Run a worker method on the worker held by the PIMPL. *)
Definition forward {A} (m : Exec FMQTTWorker.t A) (w : FMQTTWorker.t)
    (th : ThreadId) (c : t) : A * t * Log :=
  match m th w with
  | (a, w', l) => (a, set_Impl (Some (mkImpl (Some w'))) c, l)
  end.

(** [Connect]: [created] is the outcome of [FRunnableThread::Create]
    in case the worker has to be started.  [Impl->Worker] is evaluated
    without a null test on [Impl]. *)
Definition Connect (BrokerAddress : FString) (BrokerPort : int32)
    (bInUseTLS : bool) (created : bool) : Call bool :=
  fun th c0 =>
    let c := set_target BrokerAddress BrokerPort bInUseTLS c0 in
    let request :=
      (FMQTTWorker.SetClientId (ClientId c) ;;
       FMQTTWorker.SetCredentials (Username c) (Password c) ;;
       FMQTTWorker.SetKeepAlive (KeepAliveSeconds c) ;;
       FMQTTWorker.Connect (Broker c) (Port c) (bUseTLS c) ;;
       ret true)%exec in
    match Impl c with
    | None => None
    | Some impl =>
        match Worker impl with
        | Some w => Some (forward request w th c)
        | None =>
            match FMQTTWorker.Start created th (FMQTTWorker.new Valid) with
            | (true, w, _) => Some (forward request w th c)
            | (false, w, _) =>
                Some (false, set_Impl (Some (mkImpl None)) c,
                      log_of (FMQTTWorker.Shutdown th w))
            end
        end
    end.

Definition Disconnect (bForce : bool) : Call unit :=
  fun th c =>
    match worker c with
    | Some w => Some (forward (FMQTTWorker.Disconnect bForce) w th c)
    | None => Some (tt, c, [])
    end.

Definition Publish (Topic Payload : FString) (QoS : int32) (bRetain : bool)
    : Call bool :=
  fun th c =>
    match worker c with
    | Some w =>
        Some (forward (FMQTTWorker.Publish Topic Payload QoS bRetain) w th c)
    | None => Some (false, c, [])
    end.

Definition Subscribe (TopicFilter : FString) (QoS : int32) : Call bool :=
  fun th c =>
    match worker c with
    | Some w => Some (forward (FMQTTWorker.Subscribe TopicFilter QoS) w th c)
    | None => Some (false, c, [])
    end.

Definition Unsubscribe (TopicFilter : FString) : Call bool :=
  fun th c =>
    match worker c with
    | Some w => Some (forward (FMQTTWorker.Unsubscribe TopicFilter) w th c)
    | None => Some (false, c, [])
    end.

Definition SetCredentials (InUsername InPassword : FString) : Call unit :=
  fun th c0 =>
    let c := set_credentials InUsername InPassword c0 in
    match worker c with
    | Some w =>
        Some (forward
                (FMQTTWorker.SetCredentials (Username c) (Password c)) w th c)
    | None => Some (tt, c, [])
    end.

Definition SetClientId (InClientId : FString) : Call unit :=
  fun th c0 =>
    let c := set_ClientId InClientId c0 in
    match worker c with
    | Some w => Some (forward (FMQTTWorker.SetClientId (ClientId c)) w th c)
    | None => Some (tt, c, [])
    end.

(** Prefer the worker's flag; otherwise fall back to the local one. *)
Definition IsConnected (c : t) : bool :=
  match worker c with
  | Some w => FMQTTWorker.IsConnected w
  | None => bConnected c
  end.

Definition SetKeepAlive (KeepAlive : int32) : Call unit :=
  fun th c0 =>
    let c := set_KeepAliveSeconds KeepAlive c0 in
    match worker c with
    | Some w =>
        Some (forward (FMQTTWorker.SetKeepAlive (KeepAliveSeconds c)) w th c)
    | None => Some (tt, c, [])
    end.

(** [BeginDestroy]: shut the worker down, delete it, reset the PIMPL. *)
Definition BeginDestroy : Call unit :=
  fun th c =>
    match Impl c with
    | Some impl =>
        let l := match Worker impl with
                 | Some w => log_of (FMQTTWorker.Shutdown th w)
                 | None => []
                 end in
        Some (tt, set_Impl None c, l)
    | None => Some (tt, c, [])
    end.

End UMQTTClient.

(** ** Executions of one client *)

Module System.

(** The blocks of the [Run] loop body, in program order. *)
Inductive RunBlock :=
| AtWait
| AtPendingConnect
| AtProcessOutgoing
| AtProcessSubscriptions.

Definition block (b : RunBlock) : Exec FMQTTWorker.t unit :=
  match b with
  | AtWait => FMQTTWorker.Wait
  | AtPendingConnect => FMQTTWorker.PendingConnect
  | AtProcessOutgoing => FMQTTWorker.ProcessOutgoing
  | AtProcessSubscriptions => FMQTTWorker.ProcessSubscriptions
  end.

(** A step is either a call made by the owner on the game thread, or
    the worker thread running one block of its loop body. *)
Inductive Cmd :=
| CallConnect (BrokerAddress : FString) (BrokerPort : int32)
    (bInUseTLS : bool) (created : bool)
| CallDisconnect (bForce : bool)
| CallPublish (Topic Payload : FString) (QoS : int32) (bRetain : bool)
| CallSubscribe (TopicFilter : FString) (QoS : int32)
| CallUnsubscribe (TopicFilter : FString)
| CallSetCredentials (InUsername InPassword : FString)
| CallSetClientId (InClientId : FString)
| CallSetKeepAlive (KeepAlive : int32)
| CallBeginDestroy
| WorkerRuns (b : RunBlock).

Definition drop {A} (r : option (A * UMQTTClient.t * Log))
    : option (UMQTTClient.t * Log) :=
  match r with
  | Some (_, c, l) => Some (c, l)
  | None => None
  end.

(** The worker thread runs while the worker exists, its thread was
    created and no stop was requested ([while (!bStopRequested)]). *)
Definition step (x : Cmd) (c : UMQTTClient.t)
    : option (UMQTTClient.t * Log) :=
  match x with
  | CallConnect a p tls created =>
      drop (UMQTTClient.Connect a p tls created GameThread c)
  | CallDisconnect f => drop (UMQTTClient.Disconnect f GameThread c)
  | CallPublish t p q r => drop (UMQTTClient.Publish t p q r GameThread c)
  | CallSubscribe f q => drop (UMQTTClient.Subscribe f q GameThread c)
  | CallUnsubscribe f => drop (UMQTTClient.Unsubscribe f GameThread c)
  | CallSetCredentials u p =>
      drop (UMQTTClient.SetCredentials u p GameThread c)
  | CallSetClientId i => drop (UMQTTClient.SetClientId i GameThread c)
  | CallSetKeepAlive k => drop (UMQTTClient.SetKeepAlive k GameThread c)
  | CallBeginDestroy => drop (UMQTTClient.BeginDestroy GameThread c)
  | WorkerRuns b =>
      match UMQTTClient.worker c with
      | Some w =>
          if FMQTTWorker.Thread w && negb (FMQTTWorker.bStopRequested w)
          then drop (Some (UMQTTClient.forward (block b) w WorkerThread c))
          else Some (c, [])
      | None => Some (c, [])
      end
  end.

(** Run a schedule; a faulting call ends the execution.  The result is
    the log so far and the final client, if the run did not fault. *)
Fixpoint run (cs : list Cmd) (c : UMQTTClient.t)
    : Log * option UMQTTClient.t :=
  match cs with
  | [] => ([], Some c)
  | x :: rest =>
      match step x c with
      | None => ([], None)
      | Some (c1, l1) =>
          match run rest c1 with
          | (l2, r) => (l1 ++ l2, r)
          end
      end
  end.

(** One iteration of the loop body. *)
Definition iteration : list Cmd :=
  [WorkerRuns AtWait; WorkerRuns AtPendingConnect;
   WorkerRuns AtProcessOutgoing; WorkerRuns AtProcessSubscriptions].

End System.

(** ** Vocabulary of the statements *)

(** The echo of one outgoing message, made on thread [th] by a worker
    whose owner pointer is [o]. *)
Definition echo (th : ThreadId) (o : TWeakObjectPtr) (m : FMQTTOutgoing)
    : NotifyCall :=
  mkNotifyCall th (MessageReceived (Topic m) (Payload m)) (Get o).

Definition count_Connected (l : Log) : nat := length (filter is_Connected l).

(** The owner submits the messages of [msgs], in order. *)
Definition publish_all (msgs : list FMQTTOutgoing) (w : FMQTTWorker.t)
    : FMQTTWorker.t :=
  fold_left
    (fun w m =>
       state_of (FMQTTWorker.Publish (Topic m) (Payload m) (QoS m) (bRetain m)
                   GameThread w))
    msgs w.

Definition publish_cmd (m : FMQTTOutgoing) : System.Cmd :=
  System.CallPublish (Topic m) (Payload m) (QoS m) (bRetain m).

(** The worker of [c] exists and its thread is in the loop. *)
Definition running (c : UMQTTClient.t) (w : FMQTTWorker.t) : Prop :=
  UMQTTClient.worker c = Some w
  /\ FMQTTWorker.Thread w = true
  /\ FMQTTWorker.bStopRequested w = false.

Definition is_disconnect (x : System.Cmd) : bool :=
  match x with
  | System.CallDisconnect _ => true
  | _ => false
  end.


(** The worker of the client, if any, believes it is connected. *)
Definition worker_connected (c : UMQTTClient.t) : bool :=
  match UMQTTClient.worker c with
  | Some w => FMQTTWorker.bConnected w
  | None => false
  end.

(** States reached from a freshly constructed client. *)
Definition reachable (c : UMQTTClient.t) : Prop :=
  exists cs, snd (System.run cs UMQTTClient.new) = Some c.

(** The worker state in which the drain loop of one iteration starts. *)
Definition at_drain (w : FMQTTWorker.t) : FMQTTWorker.t :=
  state_of ((FMQTTWorker.Wait ;; FMQTTWorker.PendingConnect) WorkerThread w).

(** "A message drained while not connected is not echoed", for the
    iteration that starts in [w]. *)
Definition echoes_only_when_connected (w : FMQTTWorker.t) : Prop :=
  FMQTTWorker.IsConnected (at_drain w) = false ->
  filter is_MessageReceived (log_of (FMQTTWorker.RunBody WorkerThread w)) = [].

(** "[Notify*] helpers run on the worker thread only", for a log. *)
Definition notified_from_worker_only (l : Log) : Prop :=
  forall e, In e l -> caller e = WorkerThread.

Local Open Scope string_scope.
Local Open Scope list_scope.

(** The PIMPL was reset, or the worker believes it is connected: no
    establishment can follow without a disconnect. *)
Definition settled (c : UMQTTClient.t) : bool :=
  match UMQTTClient.Impl c with
  | None => true
  | Some impl =>
      match UMQTTClient.Worker impl with
      | Some w => FMQTTWorker.bConnected w
      | None => false
      end
  end.


Definition count_disconnects (cs : list System.Cmd) : nat :=
  length (filter is_disconnect cs).

(** A schedule that connects, disconnects, and then publishes. *)
Definition publish_after_disconnect : list System.Cmd :=
  [System.CallConnect "127.0.0.1" 1883%Z false true]
  ++ System.iteration
  ++ [System.CallDisconnect false;
      System.CallPublish "sensors/temp" "21.5" 0%Z false].

(** The worker at the end of [publish_after_disconnect]. *)
Definition pending_while_disconnected : FMQTTWorker.t :=
  FMQTTWorker.mk Valid true (Some true)
    [mkOutgoing "sensors/temp" "21.5" 0%Z false] []
    EmptyString 1883%Z false EmptyString EmptyString EmptyString 60%Z
    false false false false.

(** A schedule that connects and lets the worker run one iteration, and
    the client it leaves. *)
Definition connect_and_iterate : list System.Cmd :=
  [System.CallConnect "127.0.0.1" 1883%Z false true] ++ System.iteration.

Definition connected_client : UMQTTClient.t :=
  match snd (System.run connect_and_iterate UMQTTClient.new) with
  | Some c => c
  | None => UMQTTClient.new
  end.

(** A schedule that connects and then disconnects. *)
Definition connect_then_disconnect : list System.Cmd :=
  [System.CallConnect "127.0.0.1" 1883%Z false true]
  ++ System.iteration
  ++ [System.CallDisconnect false].

(** ** Vocabulary of the further properties *)

(** Topic and payload of the messages in a queue, and of the echo calls
    of a log, in order. *)
Definition contents (q : TQueue FMQTTOutgoing) : list (FString * FString) :=
  map (fun m => (Topic m, Payload m)) q.

Definition echoed (l : Log) : list (FString * FString) :=
  flat_map
    (fun e =>
       match what e with
       | MessageReceived t p => [(t, p)]
       | _ => []
       end) l.

(** Topic and payload of the [Publish] calls of a schedule, in order. *)
Definition published (cs : list System.Cmd) : list (FString * FString) :=
  flat_map
    (fun x =>
       match x with
       | System.CallPublish t p _ _ => [(t, p)]
       | _ => []
       end) cs.

Definition is_destroy (x : System.Cmd) : bool :=
  match x with
  | System.CallBeginDestroy => true
  | _ => false
  end.


Definition is_subscription (x : System.Cmd) : bool :=
  match x with
  | System.CallSubscribe _ _ => true
  | System.CallUnsubscribe _ => true
  | _ => false
  end.

Definition count_Disconnected (l : Log) : nat :=
  length (filter is_Disconnected l).


(** A worker with its subscription queue emptied and its wake event
    unsignaled, and the client holding such a worker. *)
Definition forget (w : FMQTTWorker.t) : FMQTTWorker.t :=
  FMQTTWorker.set_SubscriptionRequests []
    (FMQTTWorker.set_WakeEvent
       (match FMQTTWorker.WakeEvent w with
        | Some _ => Some false
        | None => None
        end) w).

Definition forget_client (c : UMQTTClient.t) : UMQTTClient.t :=
  match UMQTTClient.worker c with
  | Some w =>
      UMQTTClient.set_Impl (Some (UMQTTClient.mkImpl (Some (forget w)))) c
  | None => c
  end.

(** What is seen of a step or of a run, apart from the subscription
    queue and the wake event. *)
Definition seen_step (r : option (UMQTTClient.t * Log))
    : option (UMQTTClient.t * Log) :=
  match r with
  | Some (c, l) => Some (forget_client c, l)
  | None => None
  end.

Definition seen (r : Log * option UMQTTClient.t)
    : Log * option UMQTTClient.t :=
  (fst r, option_map forget_client (snd r)).

(** The worker's copy of the configuration agrees with the client's;
    the host is the client's broker or was cleared by a disconnect. *)
Definition coherent (c : UMQTTClient.t) : Prop :=
  match UMQTTClient.worker c with
  | Some w =>
      FMQTTWorker.ClientId w = UMQTTClient.ClientId c
      /\ FMQTTWorker.Username w = UMQTTClient.Username c
      /\ FMQTTWorker.Password w = UMQTTClient.Password c
      /\ FMQTTWorker.KeepAliveSeconds w = UMQTTClient.KeepAliveSeconds c
      /\ FMQTTWorker.Port w = UMQTTClient.Port c
      /\ FMQTTWorker.bUseTLS w = UMQTTClient.bUseTLS c
      /\ (FMQTTWorker.Host w = UMQTTClient.Broker c
          \/ FMQTTWorker.Host w = EmptyString)
  | None => True
  end.

(** The wake event, when there is one, is signaled. *)
Definition woken (w : FMQTTWorker.t) : Prop :=
  match FMQTTWorker.WakeEvent w with
  | Some signaled => signaled = true
  | None => True
  end.

(** [n] passes through the loop body. *)
Fixpoint passes (n : nat) (w : FMQTTWorker.t) : FMQTTWorker.t :=
  match n with
  | O => w
  | S k => passes k (state_of (FMQTTWorker.RunBody WorkerThread w))
  end.

(** * Properties *)

(** ** Concrete runs *)

Example scenario_connect_publish_disconnect :
  fst (System.run
         ([System.CallConnect "127.0.0.1" 1883%Z false true]
          ++ System.iteration
          ++ [System.CallPublish "sensors/temp" "21.5" 0%Z false]
          ++ System.iteration
          ++ [System.CallDisconnect false])
         UMQTTClient.new)
  = [mkNotifyCall WorkerThread Connected true;
     mkNotifyCall WorkerThread (MessageReceived "sensors/temp" "21.5") true;
     mkNotifyCall GameThread (Disconnected "Client requested disconnect") true].
Proof. reflexivity. Qed.

Example scenario_subscribe_unsubscribe :
  let c := UMQTTClient.new in
  match UMQTTClient.Connect "127.0.0.1" 1883%Z false true GameThread c with
  | Some (_, c1, _) =>
      match UMQTTClient.Subscribe "sensors/#" 1%Z GameThread c1 with
      | Some (r1, c2, _) =>
          match UMQTTClient.Unsubscribe "sensors/#" GameThread c2 with
          | Some (r2, _, _) => (r1, r2) = (true, true)
          | None => False
          end
      | None => False
      end
  | None => False
  end.
Proof. reflexivity. Qed.

Example connect_after_destroy_faults :
  System.run [System.CallBeginDestroy;
              System.CallConnect "127.0.0.1" 1883%Z false true]
             UMQTTClient.new
  = ([], None).
Proof. reflexivity. Qed.

(** ** Logs *)

Lemma count_Connected_app (l1 l2 : Log) :
  count_Connected (l1 ++ l2) = count_Connected l1 + count_Connected l2.
Proof.
  unfold count_Connected. rewrite filter_app, length_app. reflexivity.
Qed.

Lemma filter_Connected_echo th o (q : list FMQTTOutgoing) :
  filter is_Connected (map (echo th o) q) = [].
Proof. induction q as [|m q IH]; simpl; auto. Qed.

Lemma filter_MessageReceived_echo th o (q : list FMQTTOutgoing) :
  filter is_MessageReceived (map (echo th o) q) = map (echo th o) q.
Proof. induction q as [|m q IH]; simpl; [|rewrite IH]; reflexivity. Qed.

(** ** The loop body, block by block *)

Lemma set_OutgoingMessages_same (w : FMQTTWorker.t) :
  FMQTTWorker.set_OutgoingMessages (FMQTTWorker.OutgoingMessages w) w = w.
Proof. destruct w; reflexivity. Qed.

Lemma EchoAll_spec (q : TQueue FMQTTOutgoing) :
  forall th w,
    FMQTTWorker.EchoAll q th w
    = (tt,
       FMQTTWorker.set_OutgoingMessages
         (match q with [] => FMQTTWorker.OutgoingMessages w | _ :: _ => [] end) w,
       map (echo th (FMQTTWorker.Owner w)) q).
Proof.
  induction q as [|m rest IH]; intros th w.
  - simpl. rewrite set_OutgoingMessages_same. reflexivity.
  - cbn [FMQTTWorker.EchoAll]. unfold bind at 1. cbn [modify].
    unfold bind at 1.
    unfold FMQTTWorker.NotifyMessageReceived, FMQTTWorker.Notify at 1.
    cbn [bind this_thread gets tell app].
    rewrite IH. destruct rest; reflexivity.
Qed.

Lemma ProcessOutgoing_spec th (w : FMQTTWorker.t) :
  FMQTTWorker.ProcessOutgoing th w
  = (tt, FMQTTWorker.set_OutgoingMessages [] w,
     map (echo th (FMQTTWorker.Owner w)) (FMQTTWorker.OutgoingMessages w)).
Proof.
  unfold FMQTTWorker.ProcessOutgoing, bind, gets.
  rewrite EchoAll_spec, app_nil_l.
  destruct w as [? ? ? q ? ? ? ? ? ? ? ? ? ? ? ?]; destruct q; reflexivity.
Qed.

Ltac break_worker w :=
  let wk := fresh "wake" in
  destruct w as [? ? wk ? ? ? ? ? ? ? ? ? ? ? ? ?]; destruct wk.

Lemma RunBody_log th (w : FMQTTWorker.t) :
  log_of (FMQTTWorker.RunBody th w)
  = (if negb (FMQTTWorker.bConnected w) && negb (IsEmpty (FMQTTWorker.Host w))
     then [mkNotifyCall th Connected (Get (FMQTTWorker.Owner w))]
     else [])
    ++ map (echo th (FMQTTWorker.Owner w)) (FMQTTWorker.OutgoingMessages w).
Proof.
  unfold FMQTTWorker.RunBody.
  unfold bind at 1. cbn [FMQTTWorker.Wait modify].
  unfold bind at 1.
  break_worker w;
    match goal with
    | |- context [FMQTTWorker.mk _ _ _ _ _ ?h _ _ _ _ _ _ _ _ ?c _] =>
        destruct c; destruct h
    end;
    cbn -[FMQTTWorker.ProcessOutgoing];
    unfold bind; rewrite ProcessOutgoing_spec; cbn;
    rewrite ?app_nil_r; reflexivity.
Qed.

Lemma RunBody_state th (w : FMQTTWorker.t) :
  let w' := state_of (FMQTTWorker.RunBody th w) in
  FMQTTWorker.bConnected w'
  = FMQTTWorker.bConnected w || negb (IsEmpty (FMQTTWorker.Host w))
  /\ FMQTTWorker.OutgoingMessages w' = []
  /\ FMQTTWorker.SubscriptionRequests w' = []
  /\ FMQTTWorker.Host w' = FMQTTWorker.Host w
  /\ FMQTTWorker.Owner w' = FMQTTWorker.Owner w.
Proof.
  unfold FMQTTWorker.RunBody.
  unfold bind at 1. cbn [FMQTTWorker.Wait modify].
  unfold bind at 1.
  break_worker w;
    match goal with
    | |- context [FMQTTWorker.mk _ _ _ _ _ ?h _ _ _ _ _ _ _ _ ?c _] =>
        destruct c; destruct h
    end;
    cbn -[FMQTTWorker.ProcessOutgoing];
    unfold bind; rewrite ProcessOutgoing_spec; cbn; auto.
Qed.

(** ** Sequencing *)

Lemma seq_run {S A B} (m : Exec S A) (k : Exec S B) th (s : S) :
  (m ;; k)%exec th s
  = (value_of (k th (state_of (m th s))),
     state_of (k th (state_of (m th s))),
     log_of (m th s) ++ log_of (k th (state_of (m th s)))).
Proof.
  unfold bind, value_of, state_of, log_of.
  destruct (m th s) as [[a s1] l1]; simpl.
  destruct (k th s1) as [[b s2] l2]; reflexivity.
Qed.

Lemma block_keeps_running (b : System.RunBlock) th (w : FMQTTWorker.t) :
  FMQTTWorker.Thread (state_of (System.block b th w)) = FMQTTWorker.Thread w
  /\ FMQTTWorker.bStopRequested (state_of (System.block b th w))
     = FMQTTWorker.bStopRequested w.
Proof.
  destruct b; cbn [System.block].
  - break_worker w; split; reflexivity.
  - destruct w as [? ? ? ? ? h ? ? ? ? ? ? ? ? c ?];
      destruct c, h; split; reflexivity.
  - rewrite ProcessOutgoing_spec. destruct w; split; reflexivity.
  - destruct w; split; reflexivity.
Qed.

Lemma step_WorkerRuns (b : System.RunBlock) (c : UMQTTClient.t)
    (w : FMQTTWorker.t) :
  running c w ->
  System.step (System.WorkerRuns b) c
  = Some (UMQTTClient.set_Impl
            (Some (UMQTTClient.mkImpl
                     (Some (state_of (System.block b WorkerThread w))))) c,
          log_of (System.block b WorkerThread w)).
Proof.
  intros (Hw & Ht & Hs). cbn [System.step]. rewrite Hw, Ht, Hs.
  unfold UMQTTClient.forward, state_of, log_of; cbn [andb negb System.drop].
  destruct (System.block b WorkerThread w) as [[[] w'] l]. reflexivity.
Qed.

Lemma running_set_Impl (c : UMQTTClient.t) (w : FMQTTWorker.t) :
  FMQTTWorker.Thread w = true ->
  FMQTTWorker.bStopRequested w = false ->
  running (UMQTTClient.set_Impl (Some (UMQTTClient.mkImpl (Some w))) c) w.
Proof. intros Ht Hs. repeat split; assumption. Qed.

Lemma set_Impl_twice v1 v2 (c : UMQTTClient.t) :
  UMQTTClient.set_Impl v2 (UMQTTClient.set_Impl v1 c)
  = UMQTTClient.set_Impl v2 c.
Proof. reflexivity. Qed.

(** The four blocks in program order are one pass through the body. *)
Lemma run_iteration (c : UMQTTClient.t) (w : FMQTTWorker.t) :
  running c w ->
  System.run System.iteration c
  = (log_of (FMQTTWorker.RunBody WorkerThread w),
     Some (UMQTTClient.set_Impl
             (Some (UMQTTClient.mkImpl
                      (Some (state_of (FMQTTWorker.RunBody WorkerThread w)))))
             c)).
Proof.
  intros Hr. pose proof Hr as (_ & Ht & Hs).
  unfold System.iteration, FMQTTWorker.RunBody.
  rewrite !seq_run.
  set (w1 := state_of (FMQTTWorker.Wait WorkerThread w)).
  set (w2 := state_of (FMQTTWorker.PendingConnect WorkerThread w1)).
  set (w3 := state_of (FMQTTWorker.ProcessOutgoing WorkerThread w2)).
  destruct (block_keeps_running System.AtWait WorkerThread w) as [T1 S1].
  destruct (block_keeps_running System.AtPendingConnect WorkerThread w1)
    as [T2 S2].
  destruct (block_keeps_running System.AtProcessOutgoing WorkerThread w2)
    as [T3 S3].
  cbn [System.block] in *. fold w1 in T1, S1. fold w2 in T2, S2.
  fold w3 in T3, S3.
  cbn [System.run].
  rewrite (step_WorkerRuns System.AtWait c w Hr).
  cbn [System.block]. fold w1.
  rewrite (step_WorkerRuns System.AtPendingConnect _ w1)
    by (apply running_set_Impl; congruence).
  cbn [System.block]. fold w2. rewrite set_Impl_twice.
  rewrite (step_WorkerRuns System.AtProcessOutgoing _ w2)
    by (apply running_set_Impl; congruence).
  cbn [System.block]. fold w3. rewrite set_Impl_twice.
  rewrite (step_WorkerRuns System.AtProcessSubscriptions _ w3)
    by (apply running_set_Impl; congruence).
  cbn [System.block]. rewrite set_Impl_twice.
  unfold value_of, state_of, log_of. cbn [fst snd].
  change (snd (FMQTTWorker.ProcessSubscriptions WorkerThread w3))
    with (@nil NotifyCall).
  rewrite !app_nil_r. reflexivity.
Qed.

(** ** Owner-facing worker methods *)

Lemma Publish_spec t p q r th (w : FMQTTWorker.t) :
  FMQTTWorker.Publish t p q r th w
  = (true,
     FMQTTWorker.Trigger
       (FMQTTWorker.set_OutgoingMessages
          (FMQTTWorker.OutgoingMessages w ++ [mkOutgoing t p q r]) w),
     []).
Proof. reflexivity. Qed.

Lemma Subscribe_spec f q th (w : FMQTTWorker.t) :
  FMQTTWorker.Subscribe f q th w
  = (true,
     FMQTTWorker.Trigger
       (FMQTTWorker.set_SubscriptionRequests
          (FMQTTWorker.SubscriptionRequests w ++ [mkSubscriptionRequest f q true])
          w),
     []).
Proof. reflexivity. Qed.

Lemma Unsubscribe_spec f th (w : FMQTTWorker.t) :
  FMQTTWorker.Unsubscribe f th w
  = (true,
     FMQTTWorker.Trigger
       (FMQTTWorker.set_SubscriptionRequests
          (FMQTTWorker.SubscriptionRequests w
           ++ [mkSubscriptionRequest f 0%Z false]) w),
     []).
Proof. reflexivity. Qed.

Lemma Disconnect_spec bForce th (w : FMQTTWorker.t) :
  FMQTTWorker.Disconnect bForce th w
  = (tt,
     FMQTTWorker.Trigger
       (FMQTTWorker.set_bConnected false (FMQTTWorker.set_Host EmptyString w)),
     if FMQTTWorker.bConnected w
     then [mkNotifyCall th (Disconnected "Client requested disconnect")
             (Get (FMQTTWorker.Owner w))]
     else []).
Proof.
  destruct w as [? ? ? ? ? ? ? ? ? ? ? ? ? ? c ?]; destruct c; reflexivity.
Qed.

Lemma Connect_spec h p tls th (w : FMQTTWorker.t) :
  FMQTTWorker.Connect h p tls th w
  = (true,
     FMQTTWorker.Trigger
       (FMQTTWorker.set_bUseTLS tls
          (FMQTTWorker.set_Port p (FMQTTWorker.set_Host h w))),
     []).
Proof. reflexivity. Qed.

(** Triggering the wake event touches no other field. *)
Lemma Trigger_frame (w : FMQTTWorker.t) :
  let w' := FMQTTWorker.Trigger w in
  FMQTTWorker.Owner w' = FMQTTWorker.Owner w
  /\ FMQTTWorker.Thread w' = FMQTTWorker.Thread w
  /\ FMQTTWorker.OutgoingMessages w' = FMQTTWorker.OutgoingMessages w
  /\ FMQTTWorker.SubscriptionRequests w' = FMQTTWorker.SubscriptionRequests w
  /\ FMQTTWorker.Host w' = FMQTTWorker.Host w
  /\ FMQTTWorker.bStopRequested w' = FMQTTWorker.bStopRequested w
  /\ FMQTTWorker.bConnected w' = FMQTTWorker.bConnected w.
Proof. break_worker w; cbn; repeat split. Qed.

Lemma publish_all_cons m (msgs : list FMQTTOutgoing) (w : FMQTTWorker.t) :
  publish_all (m :: msgs) w
  = publish_all msgs
      (FMQTTWorker.Trigger
         (FMQTTWorker.set_OutgoingMessages
            (FMQTTWorker.OutgoingMessages w ++ [m]) w)).
Proof. destruct m; reflexivity. Qed.

Lemma publish_all_frame (msgs : list FMQTTOutgoing) :
  forall w,
    let w' := publish_all msgs w in
    FMQTTWorker.OutgoingMessages w' = FMQTTWorker.OutgoingMessages w ++ msgs
    /\ FMQTTWorker.Owner w' = FMQTTWorker.Owner w
    /\ FMQTTWorker.Host w' = FMQTTWorker.Host w
    /\ FMQTTWorker.bConnected w' = FMQTTWorker.bConnected w
    /\ FMQTTWorker.Thread w' = FMQTTWorker.Thread w
    /\ FMQTTWorker.bStopRequested w' = FMQTTWorker.bStopRequested w.
Proof.
  induction msgs as [|m msgs IH]; intros w.
  - cbn. rewrite app_nil_r. repeat split.
  - cbv zeta. rewrite publish_all_cons.
    match goal with |- context [publish_all msgs ?x] => specialize (IH x) end.
    cbv zeta in IH. destruct IH as (Hq & Ho & Hh & Hc & Ht & Hs).
    rewrite Hq, Ho, Hh, Hc, Ht, Hs.
    match goal with
    | |- context [FMQTTWorker.Trigger ?x] =>
        destruct (Trigger_frame x) as (To & Tt & Tq & _ & Th & Ts & Tc)
    end.
    rewrite To, Tt, Tq, Th, Ts, Tc. cbn.
    rewrite <- app_assoc. repeat split.
Qed.

(** ** Schedules *)

Lemma run_app (cs1 cs2 : list System.Cmd) :
  forall c,
    System.run (cs1 ++ cs2) c
    = match System.run cs1 c with
      | (l1, Some c1) =>
          (l1 ++ fst (System.run cs2 c1), snd (System.run cs2 c1))
      | (l1, None) => (l1, None)
      end.
Proof.
  induction cs1 as [|x cs1 IH]; intros c; cbn [System.run app].
  - destruct (System.run cs2 c); reflexivity.
  - destruct (System.step x c) as [[c1 l1]|]; [|reflexivity].
    rewrite IH. destruct (System.run cs1 c1) as [l [c2|]].
    + rewrite app_assoc. reflexivity.
    + reflexivity.
Qed.

Lemma step_publish (m : FMQTTOutgoing) (c : UMQTTClient.t)
    (w : FMQTTWorker.t) :
  UMQTTClient.worker c = Some w ->
  System.step (publish_cmd m) c
  = Some (UMQTTClient.set_Impl
            (Some (UMQTTClient.mkImpl
                     (Some (FMQTTWorker.Trigger
                              (FMQTTWorker.set_OutgoingMessages
                                 (FMQTTWorker.OutgoingMessages w ++ [m]) w)))))
            c,
          []).
Proof.
  intros Hw. unfold publish_cmd. cbn [System.step].
  unfold UMQTTClient.Publish. rewrite Hw.
  unfold UMQTTClient.forward. rewrite Publish_spec.
  destruct m; reflexivity.
Qed.

Lemma run_publishes (msgs : list FMQTTOutgoing) :
  forall c w,
    UMQTTClient.worker c = Some w ->
    System.run (map publish_cmd msgs) c
    = ([], Some (UMQTTClient.set_Impl
                   (Some (UMQTTClient.mkImpl (Some (publish_all msgs w)))) c)).
Proof.
  induction msgs as [|m msgs IH]; intros c w Hw.
  - cbn. destruct c as [[[wk]|] ? ? ? ? ? ? ? ?]; cbn in Hw; try discriminate.
    inversion Hw; subst. reflexivity.
  - cbn [map System.run]. rewrite (step_publish m c w Hw).
    erewrite IH by reflexivity.
    rewrite publish_all_cons. reflexivity.
Qed.

(** ** The claims *)

(** C1. On a worker-loop iteration that starts Disconnected with a
    non-empty recorded host, the worker establishes the connection: it
    ends the iteration Connected and calls [NotifyConnected] exactly
    once, from the worker thread (the broadcast is posted when the owner
    pointer resolves).  The stub's establishment has no failing outcome,
    so no iteration of this kind leaves the worker Disconnected. *)
Theorem C1_pending_connect_establishes (w : FMQTTWorker.t) :
  FMQTTWorker.bConnected w = false ->
  IsEmpty (FMQTTWorker.Host w) = false ->
  let r := FMQTTWorker.RunBody WorkerThread w in
  FMQTTWorker.IsConnected (state_of r) = true
  /\ filter is_Connected (log_of r)
     = [mkNotifyCall WorkerThread Connected (Get (FMQTTWorker.Owner w))]
  /\ count_Connected (log_of r) = 1.
Proof.
  intros Hc Hh r. subst r.
  destruct (RunBody_state WorkerThread w) as (Hb & _).
  unfold FMQTTWorker.IsConnected, count_Connected.
  rewrite Hb, RunBody_log, Hc, Hh, filter_app, filter_Connected_echo.
  cbn. auto.
Qed.

Lemma C1_pending_connect_establishes_witness :
  let w := FMQTTWorker.set_Host "127.0.0.1" (FMQTTWorker.new Valid) in
  let r := FMQTTWorker.RunBody WorkerThread w in
  FMQTTWorker.IsConnected (state_of r) = true
  /\ filter is_Connected (log_of r) = [mkNotifyCall WorkerThread Connected true]
  /\ count_Connected (log_of r) = 1.
Proof.
  exact (C1_pending_connect_establishes
           (FMQTTWorker.set_Host "127.0.0.1" (FMQTTWorker.new Valid))
           eq_refl eq_refl).
Defined.

(** C2. Whatever sequence of [Publish] calls the owner submits before
    the worker drains the outgoing queue, the next pass through the loop
    body emits the echo ([NotifyMessageReceived]) calls for the queued
    messages in exactly the submission order, after those that were
    already queued, and leaves the queue empty.  The same holds for the
    schedule in which the owner's calls are followed by the four blocks
    of one iteration. *)
Theorem C2_publish_fifo (msgs : list FMQTTOutgoing) (w : FMQTTWorker.t)
    (c : UMQTTClient.t) :
  let r := FMQTTWorker.RunBody WorkerThread (publish_all msgs w) in
  filter is_MessageReceived (log_of r)
  = map (echo WorkerThread (FMQTTWorker.Owner w))
        (FMQTTWorker.OutgoingMessages w ++ msgs)
  /\ FMQTTWorker.OutgoingMessages (state_of r) = []
  /\ (running c w ->
      filter is_MessageReceived
        (fst (System.run (map publish_cmd msgs ++ System.iteration) c))
      = map (echo WorkerThread (FMQTTWorker.Owner w))
            (FMQTTWorker.OutgoingMessages w ++ msgs)).
Proof.
  intros r. subst r.
  destruct (publish_all_frame msgs w) as (Hq & Ho & _ & _ & Ht & Hs).
  assert (Hlog : filter is_MessageReceived
                   (log_of (FMQTTWorker.RunBody WorkerThread
                              (publish_all msgs w)))
                 = map (echo WorkerThread (FMQTTWorker.Owner w))
                       (FMQTTWorker.OutgoingMessages w ++ msgs)).
  { rewrite RunBody_log, filter_app, filter_MessageReceived_echo, Hq, Ho.
    destruct (negb _ && negb _); reflexivity. }
  split; [exact Hlog|]. split.
  - apply (RunBody_state WorkerThread (publish_all msgs w)).
  - intros (Hw & Hth & Hst).
    rewrite run_app, (run_publishes msgs c w Hw).
    erewrite run_iteration; [exact Hlog|].
    apply running_set_Impl; congruence.
Qed.

Lemma C2_publish_fifo_witness :
  filter is_MessageReceived
    (fst (System.run
            (map publish_cmd
               [mkOutgoing "a" "1" 0%Z false; mkOutgoing "b" "2" 1%Z true;
                mkOutgoing "a" "3" 2%Z false]
             ++ System.iteration)
            (UMQTTClient.set_Impl
               (Some (UMQTTClient.mkImpl
                        (Some (FMQTTWorker.set_Thread true
                                 (FMQTTWorker.new Valid)))))
               UMQTTClient.new)))
  = [mkNotifyCall WorkerThread (MessageReceived "a" "1") true;
     mkNotifyCall WorkerThread (MessageReceived "b" "2") true;
     mkNotifyCall WorkerThread (MessageReceived "a" "3") true].
Proof.
  apply (C2_publish_fifo
           [mkOutgoing "a" "1" 0%Z false; mkOutgoing "b" "2" 1%Z true;
            mkOutgoing "a" "3" 2%Z false]
           (FMQTTWorker.set_Thread true (FMQTTWorker.new Valid))).
  repeat split.
Defined.

Example publish_after_disconnect_reaches :
  option_map UMQTTClient.worker
    (snd (System.run publish_after_disconnect UMQTTClient.new))
  = Some (Some pending_while_disconnected).
Proof. reflexivity. Qed.

(** ** One step of a schedule *)

Lemma count_Connected_echo th o (q : list FMQTTOutgoing) :
  count_Connected (map (echo th o) q) = 0.
Proof. unfold count_Connected. rewrite filter_Connected_echo. reflexivity. Qed.

(** Case analysis on a client: no PIMPL, no worker, or a worker whose
    flags, wake event and host are then split as well. *)
Ltac break_client c :=
  let w := fresh "w" in
  destruct c as [[[[w|]]|] ? ? ? ? ? ? ? ?];
  [ destruct w as [? [|] [?|] ? ? [|? ?] ? ? ? ? ? ? ? [|] [|] ?] | | ].

Ltac run_step :=
  cbn -[FMQTTWorker.ProcessOutgoing echo count_Connected] in *;
  unfold UMQTTClient.forward in *;
  rewrite ?ProcessOutgoing_spec in *;
  cbn -[echo count_Connected] in *;
  rewrite ?count_Connected_app, ?count_Connected_echo in *;
  cbn in *.

Lemma step_settled (x : System.Cmd) (c : UMQTTClient.t) :
  settled c = true ->
  is_disconnect x = false ->
  match System.step x c with
  | Some (c', l) => settled c' = true /\ count_Connected l = 0
  | None => True
  end.
Proof.
  intros Hs Hx.
  destruct x as [a p tls [|]| | | | | | | | |[| | |]]; try discriminate Hx;
    break_client c; try discriminate Hs; run_step; auto.
Qed.

Lemma step_at_most_once (x : System.Cmd) (c : UMQTTClient.t) :
  match System.step x c with
  | Some (c', l) =>
      count_Connected l = 0 \/ (count_Connected l = 1 /\ settled c' = true)
  | None => True
  end.
Proof.
  destruct x as [a p tls [|]| | | | | | | | |[| | |]];
    break_client c; run_step; auto.
Qed.



Lemma step_keeps_local_flag (x : System.Cmd) (c : UMQTTClient.t) :
  match System.step x c with
  | Some (c', _) => UMQTTClient.bConnected c' = UMQTTClient.bConnected c
  | None => True
  end.
Proof.
  destruct x as [a p tls [|]| | | | | | | | |[| | |]];
    break_client c; run_step; auto.
Qed.

(** ** Invariants along a schedule *)

Lemma run_settled (cs : list System.Cmd) :
  forall c,
    settled c = true ->
    forallb (fun x => negb (is_disconnect x)) cs = true ->
    count_Connected (fst (System.run cs c)) = 0.
Proof.
  induction cs as [|x cs IH]; intros c Hs Hcs; [reflexivity|].
  cbn [forallb] in Hcs. apply andb_prop in Hcs as [Hx Hcs].
  apply negb_true_iff in Hx.
  pose proof (step_settled x c Hs Hx) as Hstep.
  cbn [System.run].
  destruct (System.step x c) as [[c1 l1]|]; [|reflexivity].
  destruct Hstep as [Hs1 Hl1]. specialize (IH c1 Hs1 Hcs).
  destruct (System.run cs c1) as [l2 r]. cbn [fst] in *.
  rewrite count_Connected_app. lia.
Qed.

Lemma run_at_most_once_per_period (cs : list System.Cmd) :
  forall c,
    count_Connected (fst (System.run cs c))
    <= (if settled c then 0 else 1) + count_disconnects cs.
Proof.
  unfold count_disconnects.
  induction cs as [|x cs IH]; intros c; [cbn; lia|].
  cbn [System.run filter].
  pose proof (step_at_most_once x c) as Hstep.
  destruct (settled c) eqn:Hs.
  - destruct (is_disconnect x) eqn:Hx.
    + destruct (System.step x c) as [[c1 l1]|]; [|cbn; lia].
      specialize (IH c1).
      destruct (System.run cs c1) as [l2 r]. cbn [fst length] in *.
      rewrite count_Connected_app.
      destruct Hstep as [H0|[H1 Hs1]]; [|rewrite Hs1 in IH];
        destruct (settled c1); lia.
    + pose proof (step_settled x c Hs Hx) as Hkeep.
      destruct (System.step x c) as [[c1 l1]|]; [|cbn; lia].
      destruct Hkeep as [Hs1 Hl1]. specialize (IH c1). rewrite Hs1 in IH.
      destruct (System.run cs c1) as [l2 r]. cbn [fst] in *.
      rewrite count_Connected_app. lia.
  - destruct (System.step x c) as [[c1 l1]|]; [|cbn; lia].
    specialize (IH c1).
    destruct (System.run cs c1) as [l2 r]. cbn [fst] in *.
    rewrite count_Connected_app.
    destruct Hstep as [H0|[H1 Hs1]]; [|rewrite Hs1 in IH];
      destruct (is_disconnect x); cbn [length]; destruct (settled c1); lia.
Qed.

Lemma no_disconnects_count (cs : list System.Cmd) :
  forallb (fun x => negb (is_disconnect x)) cs = true ->
  count_disconnects cs = 0.
Proof.
  unfold count_disconnects.
  induction cs as [|x cs IH]; intros H; [reflexivity|].
  cbn [forallb] in H. apply andb_prop in H as [Hx Hcs].
  apply negb_true_iff in Hx. cbn [filter]. rewrite Hx. auto.
Qed.




Lemma run_keeps_local_flag (cs : list System.Cmd) :
  forall c c',
    snd (System.run cs c) = Some c' ->
    UMQTTClient.bConnected c' = UMQTTClient.bConnected c.
Proof.
  induction cs as [|x cs IH]; intros c c' H.
  - cbn in H. inversion H; reflexivity.
  - cbn [System.run] in H.
    pose proof (step_keeps_local_flag x c) as Hstep.
    destruct (System.step x c) as [[c1 l1]|]; [|discriminate H].
    specialize (IH c1 c').
    destruct (System.run cs c1) as [l2 r]. cbn [snd] in *.
    rewrite IH by assumption. exact Hstep.
Qed.

Lemma reachable_local_flag (c : UMQTTClient.t) :
  reachable c -> UMQTTClient.bConnected c = false.
Proof.
  intros [cs H]. apply run_keeps_local_flag in H. exact H.
Qed.

Lemma worker_connected_settled (c : UMQTTClient.t) :
  worker_connected c = true -> settled c = true.
Proof.
  unfold worker_connected, settled, UMQTTClient.worker.
  destruct (UMQTTClient.Impl c) as [[[w|]]|]; auto.
Qed.

(** C3. However often [Connect] is called, in a schedule without a
    disconnect at most one [NotifyConnected] call is made, and none when
    the worker is connected from the start; in any schedule there is at
    most one per connected period (one more than the number of
    [Disconnect] calls).  A [Connect] while connected makes no
    notification and keeps the worker connected and its queues as they
    are: it records the new target only. *)
Theorem C3_connect_twice_single_notification (c : UMQTTClient.t)
    (cs : list System.Cmd) (w : FMQTTWorker.t)
    (a : FString) (p : int32) (tls created : bool) :
  (forallb (fun x => negb (is_disconnect x)) cs = true ->
   count_Connected (fst (System.run cs c)) <= 1
   /\ (worker_connected c = true ->
       count_Connected (fst (System.run cs c)) = 0))
  /\ count_Connected (fst (System.run cs c)) <= 1 + count_disconnects cs
  /\ (UMQTTClient.worker c = Some w ->
      FMQTTWorker.bConnected w = true ->
      exists w',
        UMQTTClient.Connect a p tls created GameThread c
        = Some (true,
                UMQTTClient.set_Impl (Some (UMQTTClient.mkImpl (Some w')))
                  (UMQTTClient.set_target a p tls c),
                [])
        /\ FMQTTWorker.bConnected w' = true
        /\ FMQTTWorker.Host w' = a
        /\ FMQTTWorker.Port w' = p
        /\ FMQTTWorker.bUseTLS w' = tls
        /\ FMQTTWorker.OutgoingMessages w' = FMQTTWorker.OutgoingMessages w
        /\ FMQTTWorker.SubscriptionRequests w'
           = FMQTTWorker.SubscriptionRequests w).
Proof.
  pose proof (run_at_most_once_per_period cs c) as Hall.
  split; [|split].
  - intros Hcs. rewrite (no_disconnects_count cs Hcs) in Hall. split.
    + destruct (settled c); lia.
    + intros Hc. apply run_settled; [apply worker_connected_settled|]; auto.
  - destruct (settled c); lia.
  - intros Hw Hc.
    unfold UMQTTClient.worker in Hw.
    destruct c as [[[wk]|] ? ? ? ? ? ? ? ?]; cbn in Hw; [|discriminate].
    subst wk. break_worker w; cbn in Hc; subst;
      eexists; (split; [reflexivity|]); cbn; repeat split.
Qed.

Lemma C3_connect_twice_single_notification_witness :
  count_Connected
    (fst (System.run
            ([System.CallConnect "127.0.0.1" 1883%Z false true;
              System.CallConnect "127.0.0.1" 1883%Z false true]
             ++ System.iteration
             ++ [System.CallConnect "10.0.0.2" 8883%Z true true]
             ++ System.iteration)
            UMQTTClient.new)) <= 1.
Proof.
  destruct (C3_connect_twice_single_notification UMQTTClient.new
              ([System.CallConnect "127.0.0.1" 1883%Z false true;
                System.CallConnect "127.0.0.1" 1883%Z false true]
               ++ System.iteration
               ++ [System.CallConnect "10.0.0.2" 8883%Z true true]
               ++ System.iteration)
              (FMQTTWorker.new Valid) EmptyString 0%Z false false)
    as [H _].
  exact (proj1 (H eq_refl)).
Defined.

(** C4 (as stated, refuted).  In the state reached by connecting,
    disconnecting and then publishing, the worker is not connected when
    it drains the queue, and it echoes the message all the same. *)
Lemma C4_echo_while_disconnected :
  ~ echoes_only_when_connected pending_while_disconnected.
Proof.
  unfold echoes_only_when_connected. intros H.
  specialize (H eq_refl). discriminate H.
Qed.

(** C4 (amended).  Every outgoing message drained by the worker loop is
    looped back as a [NotifyMessageReceived] call that carries the same
    topic and payload, whether or not the worker is connected when it
    drains the queue. *)
Theorem C4_echo_regardless_of_connection (w : FMQTTWorker.t) :
  filter is_MessageReceived (log_of (FMQTTWorker.RunBody WorkerThread w))
  = map (fun m =>
           mkNotifyCall WorkerThread (MessageReceived (Topic m) (Payload m))
             (Get (FMQTTWorker.Owner w)))
        (FMQTTWorker.OutgoingMessages w)
  /\ log_of (FMQTTWorker.ProcessOutgoing WorkerThread w)
     = map (echo WorkerThread (FMQTTWorker.Owner w))
           (FMQTTWorker.OutgoingMessages w).
Proof.
  split.
  - rewrite RunBody_log, filter_app, filter_MessageReceived_echo.
    destruct (negb _ && negb _); reflexivity.
  - rewrite ProcessOutgoing_spec. reflexivity.
Qed.

(** C5. [Disconnect] on a connected worker makes exactly one
    [NotifyDisconnected] call, with reason "Client requested
    disconnect", and [IsConnected] is false in the state the call
    returns; on a worker that is not connected it makes no call.  The
    same holds through the client wrapper in every state reached from a
    new client. *)
Theorem C5_disconnect_notifies_once (bForce : bool) (th : ThreadId)
    (w : FMQTTWorker.t) (c : UMQTTClient.t) :
  (FMQTTWorker.IsConnected
     (state_of (FMQTTWorker.Disconnect bForce th w)) = false
   /\ (FMQTTWorker.IsConnected w = true ->
       log_of (FMQTTWorker.Disconnect bForce th w)
       = [mkNotifyCall th (Disconnected "Client requested disconnect")
            (Get (FMQTTWorker.Owner w))])
   /\ (FMQTTWorker.IsConnected w = false ->
       log_of (FMQTTWorker.Disconnect bForce th w) = []))
  /\ (reachable c ->
      exists c' l,
        UMQTTClient.Disconnect bForce th c = Some (tt, c', l)
        /\ UMQTTClient.IsConnected c' = false
        /\ (UMQTTClient.IsConnected c = true ->
            map what l = [Disconnected "Client requested disconnect"])
        /\ (UMQTTClient.IsConnected c = false -> l = [])).
Proof.
  split.
  - rewrite Disconnect_spec. unfold FMQTTWorker.IsConnected.
    cbn [state_of log_of fst snd].
    destruct (Trigger_frame
                (FMQTTWorker.set_bConnected false
                   (FMQTTWorker.set_Host EmptyString w)))
      as (_ & _ & _ & _ & _ & _ & Hc).
    rewrite Hc. repeat split; intros H; rewrite H; reflexivity.
  - intros Hr. apply reachable_local_flag in Hr.
    unfold UMQTTClient.Disconnect, UMQTTClient.IsConnected.
    destruct (UMQTTClient.worker c) as [wk|] eqn:Hw.
    + unfold UMQTTClient.forward. rewrite Disconnect_spec.
      do 2 eexists. split; [reflexivity|].
      cbn [UMQTTClient.worker UMQTTClient.set_Impl UMQTTClient.Impl
             UMQTTClient.Worker].
      unfold FMQTTWorker.IsConnected.
      destruct (Trigger_frame
                  (FMQTTWorker.set_bConnected false
                     (FMQTTWorker.set_Host EmptyString wk)))
        as (_ & _ & _ & _ & _ & _ & Hc).
      rewrite Hc. repeat split; intros H; rewrite H; reflexivity.
    + exists c, []. rewrite Hw. repeat split; auto.
      rewrite Hr. discriminate.
Qed.

Lemma C5_disconnect_notifies_once_witness :
  exists c' l,
    UMQTTClient.Disconnect true GameThread connected_client
    = Some (tt, c', l)
    /\ UMQTTClient.IsConnected c' = false
    /\ map what l = [Disconnected "Client requested disconnect"].
Proof.
  destruct (C5_disconnect_notifies_once true GameThread
              (FMQTTWorker.new Valid) connected_client) as [_ H].
  destruct H as (c' & l & H1 & H2 & H3 & _).
  - exists connect_and_iterate. vm_compute. reflexivity.
  - exists c', l. split; [exact H1|]. split; [exact H2|].
    apply H3. vm_compute. reflexivity.
Defined.



(** C7 (violated by the code).  In the schedule that connects, lets the
    worker run one iteration and then calls [Disconnect], the
    [NotifyDisconnected] helper is executed on the game thread, inside
    the owner's call, and not by the worker loop. *)
Theorem C7_disconnect_notifies_on_game_thread :
  fst (System.run connect_then_disconnect UMQTTClient.new)
  = [mkNotifyCall WorkerThread Connected true;
     mkNotifyCall GameThread (Disconnected "Client requested disconnect") true]
  /\ ~ notified_from_worker_only
         (fst (System.run connect_then_disconnect UMQTTClient.new)).
Proof.
  split; [vm_compute; reflexivity|].
  intros H.
  specialize (H (mkNotifyCall GameThread
                   (Disconnected "Client requested disconnect") true)).
  assert (Hin : In (mkNotifyCall GameThread
                      (Disconnected "Client requested disconnect") true)
                   (fst (System.run connect_then_disconnect UMQTTClient.new))).
  { vm_compute. right. left. reflexivity. }
  specialize (H Hin). discriminate H.
Qed.

(** Whenever the owner disconnects a connected worker, the helper runs
    on the thread of the caller. *)
Lemma Disconnect_notifies_on_caller_thread bForce th (w : FMQTTWorker.t) :
  FMQTTWorker.bConnected w = true ->
  map caller (log_of (FMQTTWorker.Disconnect bForce th w)) = [th].
Proof. intros H. rewrite Disconnect_spec, H. reflexivity. Qed.

(** C8. With no worker (the PIMPL holds none, as in a new client, or the
    PIMPL was reset, as after [BeginDestroy]), [Publish], [Subscribe]
    and [Unsubscribe] return false, leave the client as it is and make
    no notification; they do not fault. *)
Theorem C8_calls_without_worker (c : UMQTTClient.t) (th : ThreadId)
    (topic payload filter : FString) (qos : int32) (retain : bool) :
  (UMQTTClient.worker c = None ->
   UMQTTClient.Publish topic payload qos retain th c = Some (false, c, [])
   /\ UMQTTClient.Subscribe filter qos th c = Some (false, c, [])
   /\ UMQTTClient.Unsubscribe filter th c = Some (false, c, []))
  /\ UMQTTClient.worker UMQTTClient.new = None
  /\ (exists c' l,
        UMQTTClient.BeginDestroy th c = Some (tt, c', l)
        /\ UMQTTClient.Impl c' = None
        /\ UMQTTClient.worker c' = None).
Proof.
  split; [|split].
  - intros Hw.
    unfold UMQTTClient.Publish, UMQTTClient.Subscribe, UMQTTClient.Unsubscribe.
    rewrite Hw. repeat split.
  - reflexivity.
  - unfold UMQTTClient.BeginDestroy.
    destruct c as [[impl|] ? ? ? ? ? ? ? ?]; cbn;
      do 2 eexists; repeat split.
Qed.

Lemma C8_calls_without_worker_witness :
  UMQTTClient.Publish "sensors/temp" "21.5" 0%Z false GameThread UMQTTClient.new
  = Some (false, UMQTTClient.new, [])
  /\ UMQTTClient.Subscribe "sensors/#" 0%Z GameThread UMQTTClient.new
     = Some (false, UMQTTClient.new, [])
  /\ UMQTTClient.Unsubscribe "sensors/#" GameThread UMQTTClient.new
     = Some (false, UMQTTClient.new, []).
Proof.
  exact (proj1 (C8_calls_without_worker UMQTTClient.new GameThread
                  "sensors/temp" "21.5" "sensors/#" 0%Z false) eq_refl).
Defined.

(** C9. [Disconnect] with [bForce] true and with [bForce] false return
    the same worker, the same client and the same notifications, and
    every schedule that differs only in that flag produces the same log
    and the same final client. *)
Theorem C9_force_flag_ignored (w : FMQTTWorker.t) (th : ThreadId)
    (c : UMQTTClient.t) (pre post : list System.Cmd) :
  FMQTTWorker.Disconnect true th w = FMQTTWorker.Disconnect false th w
  /\ UMQTTClient.Disconnect true th c = UMQTTClient.Disconnect false th c
  /\ System.run (pre ++ System.CallDisconnect true :: post) c
     = System.run (pre ++ System.CallDisconnect false :: post) c.
Proof.
  split; [|split].
  - rewrite !Disconnect_spec. reflexivity.
  - unfold UMQTTClient.Disconnect, UMQTTClient.forward.
    destruct (UMQTTClient.worker c); [|reflexivity].
    rewrite !Disconnect_spec. reflexivity.
  - rewrite !run_app.
    destruct (System.run pre c) as [l [c1|]]; [|reflexivity].
    cbn [System.run System.step].
    unfold UMQTTClient.Disconnect, UMQTTClient.forward.
    destruct (UMQTTClient.worker c1); [|reflexivity].
    rewrite !Disconnect_spec. reflexivity.
Qed.

(** C10. With a worker in place, [Publish] and [Subscribe] return true
    for every integer QoS, also outside 0..2, and append to their queue
    a request that carries the QoS (and topic, payload, retain flag or
    filter) exactly as given; nothing is clamped, checked or refused. *)
Theorem C10_qos_stored_unchanged (c : UMQTTClient.t) (w : FMQTTWorker.t)
    (th : ThreadId) (topic payload filter : FString) (qos : int32)
    (retain : bool) :
  UMQTTClient.worker c = Some w ->
  (exists c' w',
     UMQTTClient.Publish topic payload qos retain th c = Some (true, c', [])
     /\ UMQTTClient.worker c' = Some w'
     /\ FMQTTWorker.OutgoingMessages w'
        = FMQTTWorker.OutgoingMessages w
          ++ [mkOutgoing topic payload qos retain]
     /\ FMQTTWorker.SubscriptionRequests w'
        = FMQTTWorker.SubscriptionRequests w)
  /\ (exists c' w',
        UMQTTClient.Subscribe filter qos th c = Some (true, c', [])
        /\ UMQTTClient.worker c' = Some w'
        /\ FMQTTWorker.SubscriptionRequests w'
           = FMQTTWorker.SubscriptionRequests w
             ++ [mkSubscriptionRequest filter qos true]
        /\ FMQTTWorker.OutgoingMessages w' = FMQTTWorker.OutgoingMessages w).
Proof.
  intros Hw.
  unfold UMQTTClient.Publish, UMQTTClient.Subscribe, UMQTTClient.forward.
  rewrite Hw, Publish_spec, Subscribe_spec.
  split; do 2 eexists; (split; [reflexivity|]); (split; [reflexivity|]);
    match goal with
    | |- context [FMQTTWorker.Trigger ?x] =>
        destruct (Trigger_frame x) as (_ & _ & Hq & Hs & _)
    end; rewrite Hq, Hs; split; reflexivity.
Qed.

Lemma C10_qos_stored_unchanged_witness :
  exists c' w',
    UMQTTClient.Publish "sensors/temp" "21.5" 7%Z true GameThread
      connected_client = Some (true, c', [])
    /\ UMQTTClient.worker c' = Some w'
    /\ map QoS (FMQTTWorker.OutgoingMessages w') = [7%Z].
Proof.
  destruct (C10_qos_stored_unchanged connected_client
              (FMQTTWorker.mk Valid true (Some false) [] [] "127.0.0.1"
                 1883%Z false EmptyString EmptyString EmptyString 60%Z
                 false false true false)
              GameThread "sensors/temp" "21.5" "sensors/#" 7%Z true)
    as [(c' & w' & H1 & H2 & H3 & _) _].
  - vm_compute. reflexivity.
  - exists c', w'. split; [exact H1|]. split; [exact H2|].
    rewrite H3. reflexivity.
Defined.

(** * Further properties of the client and the worker *)

(** ** Connect *)

(** When the worker thread cannot be created, [Connect] reports false
    and leaves no worker behind; the target is recorded in the client
    all the same, no notification is made, and a [Publish] that follows
    is refused. *)
Theorem Connect_start_failure_leaves_no_worker (c : UMQTTClient.t)
    (a : FString) (p : int32) (tls : bool) (th : ThreadId) :
  UMQTTClient.Impl c = Some (UMQTTClient.mkImpl None) ->
  exists c',
    UMQTTClient.Connect a p tls false th c = Some (false, c', [])
    /\ UMQTTClient.worker c' = None
    /\ UMQTTClient.Broker c' = a
    /\ UMQTTClient.Port c' = p
    /\ UMQTTClient.bUseTLS c' = tls
    /\ UMQTTClient.IsConnected c' = UMQTTClient.bConnected c
    /\ forall t pl q r,
        UMQTTClient.Publish t pl q r th c' = Some (false, c', []).
Proof.
  intros Hi. destruct c as [impl ? ? ? ? ? ? ? ?]. cbn in Hi. subst impl.
  eexists. split; [reflexivity|]. cbn. repeat split.
Qed.

Lemma Connect_start_failure_leaves_no_worker_witness :
  exists c',
    UMQTTClient.Connect "127.0.0.1" 1883%Z false false GameThread
      UMQTTClient.new = Some (false, c', [])
    /\ UMQTTClient.worker c' = None
    /\ UMQTTClient.Broker c' = "127.0.0.1".
Proof.
  destruct (Connect_start_failure_leaves_no_worker UMQTTClient.new
              "127.0.0.1" 1883%Z false GameThread eq_refl)
    as (c' & H1 & H2 & H3 & _).
  exists c'. auto.
Defined.

(** When a worker is in place or its thread can be created, [Connect]
    returns true without any notification and hands the worker the
    target given and the client's identifier, credentials and keep-alive
    interval.  It leaves the connection flag and the queues of an
    existing worker alone; a worker it creates starts disconnected, with
    empty queues and its thread in place. *)
Theorem Connect_forwards_configuration (c : UMQTTClient.t)
    (impl : UMQTTClient.FImpl) (a : FString) (p : int32)
    (tls created : bool) (th : ThreadId) :
  UMQTTClient.Impl c = Some impl ->
  (UMQTTClient.Worker impl = None -> created = true) ->
  exists c' w',
    UMQTTClient.Connect a p tls created th c = Some (true, c', [])
    /\ UMQTTClient.worker c' = Some w'
    /\ FMQTTWorker.Host w' = a
    /\ FMQTTWorker.Port w' = p
    /\ FMQTTWorker.bUseTLS w' = tls
    /\ FMQTTWorker.ClientId w' = UMQTTClient.ClientId c
    /\ FMQTTWorker.Username w' = UMQTTClient.Username c
    /\ FMQTTWorker.Password w' = UMQTTClient.Password c
    /\ FMQTTWorker.KeepAliveSeconds w' = UMQTTClient.KeepAliveSeconds c
    /\ match UMQTTClient.Worker impl with
       | Some w =>
           FMQTTWorker.bConnected w' = FMQTTWorker.bConnected w
           /\ FMQTTWorker.OutgoingMessages w' = FMQTTWorker.OutgoingMessages w
           /\ FMQTTWorker.SubscriptionRequests w'
              = FMQTTWorker.SubscriptionRequests w
       | None =>
           FMQTTWorker.bConnected w' = false
           /\ FMQTTWorker.OutgoingMessages w' = []
           /\ FMQTTWorker.SubscriptionRequests w' = []
           /\ FMQTTWorker.Thread w' = true
       end.
Proof.
  intros Hi Hc. destruct c as [i ? ? ? ? ? ? ? ?]. cbn in Hi. subst i.
  destruct impl as [[w|]].
  - break_worker w; vm_compute; do 2 eexists; repeat split.
  - cbn in Hc. rewrite (Hc eq_refl). vm_compute.
    do 2 eexists; repeat split.
Qed.

Lemma Connect_forwards_configuration_witness :
  exists c' w',
    UMQTTClient.Connect "10.0.0.2" 8883%Z true true GameThread
      UMQTTClient.new = Some (true, c', [])
    /\ UMQTTClient.worker c' = Some w'
    /\ FMQTTWorker.Host w' = "10.0.0.2"
    /\ FMQTTWorker.Port w' = 8883%Z
    /\ FMQTTWorker.bUseTLS w' = true.
Proof.
  destruct (Connect_forwards_configuration UMQTTClient.new
              (UMQTTClient.mkImpl None) "10.0.0.2" 8883%Z true true
              GameThread eq_refl (fun _ => eq_refl))
    as (c' & w' & H1 & H2 & H3 & H4 & H5 & _).
  exists c', w'. auto.
Defined.

(** ** Invariants of every schedule *)

Lemma run_invariant (P : UMQTTClient.t -> Prop) :
  (forall x c,
      P c ->
      match System.step x c with
      | Some (c', _) => P c'
      | None => True
      end) ->
  forall cs c c', P c -> snd (System.run cs c) = Some c' -> P c'.
Proof.
  intros Hstep. induction cs as [|x cs IH]; intros c c' Hc Hrun.
  - cbn in Hrun. inversion Hrun; subst; exact Hc.
  - cbn [System.run] in Hrun. specialize (Hstep x c Hc).
    destruct (System.step x c) as [[c1 l1]|]; [|discriminate Hrun].
    specialize (IH c1 c' Hstep).
    destruct (System.run cs c1) as [l2 r]. apply IH. exact Hrun.
Qed.

Lemma step_coherent (x : System.Cmd) (c : UMQTTClient.t) :
  coherent c ->
  match System.step x c with
  | Some (c', _) => coherent c'
  | None => True
  end.
Proof.
  intros Hc.
  destruct x as [a p tls [|]| | | | | | | | |[| | |]];
    break_client c; unfold coherent in *; run_step;
    try exact I; intuition congruence.
Qed.

(** In every state reached from a new client, the worker's identifier,
    credentials, keep-alive interval, port and TLS flag are those of the
    client, and its host is the client's broker unless a disconnect has
    cleared it. *)
Theorem reachable_configuration_coherent (c : UMQTTClient.t) :
  reachable c -> coherent c.
Proof.
  intros [cs Hrun].
  apply (run_invariant coherent step_coherent cs UMQTTClient.new c);
    [exact I|exact Hrun].
Qed.

Lemma reachable_configuration_coherent_witness : coherent connected_client.
Proof.
  apply reachable_configuration_coherent.
  exists connect_and_iterate. vm_compute. reflexivity.
Defined.

(** ** The notification helpers and a destroyed owner *)

Lemma delivered_echo_stale th (q : list FMQTTOutgoing) :
  delivered (map (echo th Stale) q) = [].
Proof. induction q as [|m q IH]; [reflexivity|exact IH]. Qed.

Lemma delivered_echo_valid th (q : list FMQTTOutgoing) :
  delivered (map (echo th Valid) q) = map what (map (echo th Valid) q).
Proof.
  unfold delivered. induction q as [|m q IH]; [reflexivity|].
  cbn. f_equal. exact IH.
Qed.

(** When the weak owner pointer no longer resolves, a pass through the
    loop body posts nothing to the game thread, and neither does
    [Disconnect]; the pass still marks the worker connected when a host
    is pending and still empties the outgoing queue, so the messages it
    drains are lost.  With a live owner every call of a helper is
    posted. *)
Theorem stale_owner_drops_notifications (w : FMQTTWorker.t)
    (th : ThreadId) (bForce : bool) :
  (FMQTTWorker.Owner w = Stale ->
   delivered (log_of (FMQTTWorker.RunBody th w)) = []
   /\ delivered (log_of (FMQTTWorker.Disconnect bForce th w)) = []
   /\ FMQTTWorker.OutgoingMessages (state_of (FMQTTWorker.RunBody th w)) = []
   /\ FMQTTWorker.bConnected (state_of (FMQTTWorker.RunBody th w))
      = FMQTTWorker.bConnected w || negb (IsEmpty (FMQTTWorker.Host w)))
  /\ (FMQTTWorker.Owner w = Valid ->
      delivered (log_of (FMQTTWorker.RunBody th w))
      = map what (log_of (FMQTTWorker.RunBody th w))
      /\ delivered (log_of (FMQTTWorker.Disconnect bForce th w))
         = map what (log_of (FMQTTWorker.Disconnect bForce th w))).
Proof.
  destruct (RunBody_state th w) as (Hb & Hq & _).
  split; intros Ho.
  - rewrite RunBody_log, Disconnect_spec, Ho.
    repeat split; auto.
    + unfold delivered. rewrite filter_app, map_app.
      fold (delivered (map (echo th Stale) (FMQTTWorker.OutgoingMessages w))).
      rewrite delivered_echo_stale.
      destruct (negb _ && negb _); reflexivity.
    + destruct (FMQTTWorker.bConnected w); reflexivity.
  - rewrite RunBody_log, Disconnect_spec, Ho. split.
    + unfold delivered. rewrite filter_app, !map_app.
      fold (delivered (map (echo th Valid) (FMQTTWorker.OutgoingMessages w))).
      rewrite delivered_echo_valid.
      destruct (negb _ && negb _); reflexivity.
    + destruct (FMQTTWorker.bConnected w); reflexivity.
Qed.

Lemma stale_owner_drops_notifications_witness :
  delivered
    (log_of (FMQTTWorker.RunBody WorkerThread
               (FMQTTWorker.mk Stale true (Some true)
                  [mkOutgoing "sensors/temp" "21.5" 0%Z false] []
                  "127.0.0.1" 1883%Z false EmptyString EmptyString
                  EmptyString 60%Z false false false false))) = [].
Proof.
  exact (proj1 (proj1 (stale_owner_drops_notifications
                         (FMQTTWorker.mk Stale true (Some true)
                            [mkOutgoing "sensors/temp" "21.5" 0%Z false] []
                            "127.0.0.1" 1883%Z false EmptyString EmptyString
                            EmptyString 60%Z false false false false)
                         WorkerThread false) eq_refl)).
Defined.

(** ** Disconnect, the wake event, shutdown *)

Lemma RunBody_wake th (w : FMQTTWorker.t) :
  FMQTTWorker.WakeEvent (state_of (FMQTTWorker.RunBody th w))
  = match FMQTTWorker.WakeEvent w with
    | Some _ => Some false
    | None => None
    end.
Proof.
  unfold FMQTTWorker.RunBody. rewrite !seq_run. unfold state_of at 1.
  cbn [fst snd FMQTTWorker.ProcessSubscriptions modify
         FMQTTWorker.set_SubscriptionRequests FMQTTWorker.WakeEvent].
  rewrite ProcessOutgoing_spec. unfold state_of at 1.
  cbn [fst snd FMQTTWorker.set_OutgoingMessages FMQTTWorker.WakeEvent].
  destruct w as [? ? wk ? ? h ? ? ? ? ? ? ? ? conn ?];
    destruct wk, conn, h; reflexivity.
Qed.



(** A second [Disconnect], whatever its flag and thread, changes nothing
    and notifies nothing. *)
Theorem Disconnect_idempotent (w : FMQTTWorker.t) (f1 f2 : bool)
    (th1 th2 : ThreadId) :
  FMQTTWorker.Disconnect f2 th2
    (state_of (FMQTTWorker.Disconnect f1 th1 w))
  = (tt, state_of (FMQTTWorker.Disconnect f1 th1 w), []).
Proof.
  rewrite !Disconnect_spec. unfold state_of. cbn [fst snd].
  break_worker w; reflexivity.
Qed.

(** Every request of the owner to the worker ([Connect], [Disconnect],
    [Publish], [Subscribe], [Unsubscribe]) leaves the wake event
    signaled; the setters leave it as it is; the wait at the head of the
    loop body resets it. *)
Theorem requests_wake_the_worker (w : FMQTTWorker.t) (th : ThreadId)
    (s1 s2 : FString) (n : int32) (b1 b2 : bool) :
  woken (state_of (FMQTTWorker.Connect s1 n b1 th w))
  /\ woken (state_of (FMQTTWorker.Disconnect b1 th w))
  /\ woken (state_of (FMQTTWorker.Publish s1 s2 n b1 th w))
  /\ woken (state_of (FMQTTWorker.Subscribe s1 n th w))
  /\ woken (state_of (FMQTTWorker.Unsubscribe s1 th w))
  /\ FMQTTWorker.WakeEvent (state_of (FMQTTWorker.SetClientId s1 th w))
     = FMQTTWorker.WakeEvent w
  /\ FMQTTWorker.WakeEvent (state_of (FMQTTWorker.SetCredentials s1 s2 th w))
     = FMQTTWorker.WakeEvent w
  /\ FMQTTWorker.WakeEvent (state_of (FMQTTWorker.SetKeepAlive n th w))
     = FMQTTWorker.WakeEvent w
  /\ FMQTTWorker.WakeEvent (state_of (FMQTTWorker.RunBody th w))
     <> Some true.
Proof.
  rewrite Disconnect_spec, RunBody_wake. unfold woken.
  break_worker w; cbn; repeat split; discriminate.
Qed.

Lemma RunBody_keeps_flags th (w : FMQTTWorker.t) :
  FMQTTWorker.bStopRequested (state_of (FMQTTWorker.RunBody th w))
  = FMQTTWorker.bStopRequested w
  /\ FMQTTWorker.bShutdownComplete (state_of (FMQTTWorker.RunBody th w))
     = FMQTTWorker.bShutdownComplete w
  /\ FMQTTWorker.Thread (state_of (FMQTTWorker.RunBody th w))
     = FMQTTWorker.Thread w.
Proof.
  unfold FMQTTWorker.RunBody. rewrite !seq_run. unfold state_of at 1 3 5.
  cbn [fst snd FMQTTWorker.ProcessSubscriptions modify
         FMQTTWorker.set_SubscriptionRequests FMQTTWorker.bStopRequested
         FMQTTWorker.bShutdownComplete FMQTTWorker.Thread].
  rewrite ProcessOutgoing_spec. unfold state_of at 1 3 5.
  cbn [fst snd FMQTTWorker.set_OutgoingMessages FMQTTWorker.bStopRequested
         FMQTTWorker.bShutdownComplete FMQTTWorker.Thread].
  destruct w as [? ? wk ? ? h ? ? ? ? ? ? ? ? conn ?];
    destruct wk, conn, h; repeat split.
Qed.

Lemma passes_keep_flags (n : nat) :
  forall w,
    FMQTTWorker.bStopRequested (passes n w) = FMQTTWorker.bStopRequested w
    /\ FMQTTWorker.bShutdownComplete (passes n w)
       = FMQTTWorker.bShutdownComplete w.
Proof.
  induction n as [|n IH]; intros w; [split; reflexivity|].
  cbn [passes].
  destruct (IH (state_of (FMQTTWorker.RunBody WorkerThread w))) as [H1 H2].
  destruct (RunBody_keeps_flags WorkerThread w) as (K1 & K2 & _).
  rewrite H1, H2, K1, K2. split; reflexivity.
Qed.


(** While no stop is requested the loop does not end: however many
    times the condition is tested, [Run] is still in the loop, having
    made one pass through the body per test, and [bShutdownComplete] is
    as it was. *)
Theorem Run_loops_until_stopped (w : FMQTTWorker.t) (n : nat) :
  FMQTTWorker.bStopRequested w = false ->
  value_of (FMQTTWorker.Run n WorkerThread w) = None
  /\ state_of (FMQTTWorker.Run n WorkerThread w) = passes n w
  /\ FMQTTWorker.bShutdownComplete (passes n w)
     = FMQTTWorker.bShutdownComplete w.
Proof.
  intros Hs. split; [|split]; [| |apply passes_keep_flags];
    revert w Hs; induction n as [|n IH]; intros w Hs; try reflexivity.
  - cbn [FMQTTWorker.Run]. unfold bind at 1. cbn [gets]. rewrite Hs.
    rewrite seq_run. unfold value_of at 1. cbn [fst]. apply IH.
    rewrite (proj1 (RunBody_keeps_flags WorkerThread w)). exact Hs.
  - cbn [FMQTTWorker.Run passes]. unfold bind at 1. cbn [gets]. rewrite Hs.
    rewrite seq_run. unfold state_of at 1. cbn [fst snd]. apply IH.
    rewrite (proj1 (RunBody_keeps_flags WorkerThread w)). exact Hs.
Qed.

Lemma Run_loops_until_stopped_witness :
  value_of (FMQTTWorker.Run 5 WorkerThread pending_while_disconnected) = None.
Proof.
  exact (proj1 (Run_loops_until_stopped pending_while_disconnected 5 eq_refl)).
Defined.


(** ** After destruction *)




(** ** No fault before destruction *)

Lemma step_has_impl (x : System.Cmd) (c : UMQTTClient.t) :
  UMQTTClient.Impl c <> None ->
  is_destroy x = false ->
  match System.step x c with
  | Some (c', _) =>
      match UMQTTClient.Impl c' with Some _ => True | None => False end
  | None => False
  end.
Proof.
  intros Hi Hx.
  destruct x as [a p tls [|]| | | | | | | | |[| | |]]; try discriminate Hx;
    break_client c; try (exfalso; apply Hi; reflexivity);
    run_step; exact I.
Qed.

(** A schedule on a client whose PIMPL is in place runs to its end
    without a fault as long as it does not call [BeginDestroy]. *)
Theorem no_fault_before_destroy (cs : list System.Cmd) (c : UMQTTClient.t) :
  UMQTTClient.Impl c <> None ->
  forallb (fun x => negb (is_destroy x)) cs = true ->
  exists c', snd (System.run cs c) = Some c' /\ UMQTTClient.Impl c' <> None.
Proof.
  revert c. induction cs as [|x cs IH]; intros c Hi Hcs.
  - exists c. split; [reflexivity|exact Hi].
  - cbn [forallb] in Hcs. apply andb_prop in Hcs as [Hx Hcs].
    apply negb_true_iff in Hx.
    pose proof (step_has_impl x c Hi Hx) as Hstep.
    cbn [System.run].
    destruct (System.step x c) as [[c1 l1]|]; [|contradiction].
    assert (Hi1 : UMQTTClient.Impl c1 <> None)
      by (destruct (UMQTTClient.Impl c1); [discriminate|contradiction]).
    destruct (IH c1 Hi1 Hcs) as (c' & Hr & Hi').
    destruct (System.run cs c1) as [l2 r]. cbn [snd] in *.
    exists c'. split; assumption.
Qed.

Lemma no_fault_before_destroy_witness :
  exists c',
    snd (System.run publish_after_disconnect UMQTTClient.new) = Some c'
    /\ UMQTTClient.Impl c' <> None.
Proof.
  apply (no_fault_before_destroy publish_after_disconnect UMQTTClient.new).
  - discriminate.
  - reflexivity.
Defined.

(** ** Disconnected notifications and the connection flag *)

Lemma count_Disconnected_app (l1 l2 : Log) :
  count_Disconnected (l1 ++ l2)
  = count_Disconnected l1 + count_Disconnected l2.
Proof.
  unfold count_Disconnected. rewrite filter_app, length_app. reflexivity.
Qed.

Lemma count_Disconnected_echo th o (q : list FMQTTOutgoing) :
  count_Disconnected (map (echo th o) q) = 0.
Proof.
  unfold count_Disconnected.
  induction q as [|m q IH]; [reflexivity|exact IH].
Qed.

Ltac run_step_disc :=
  cbn -[FMQTTWorker.ProcessOutgoing echo count_Connected
          count_Disconnected] in *;
  unfold UMQTTClient.forward in *;
  rewrite ?ProcessOutgoing_spec in *;
  cbn -[echo count_Connected count_Disconnected] in *;
  rewrite ?count_Connected_app, ?count_Connected_echo,
    ?count_Disconnected_app, ?count_Disconnected_echo in *;
  cbn in *.

Lemma step_Disconnected_bound (x : System.Cmd) (c : UMQTTClient.t) :
  match System.step x c with
  | Some (_, l) => count_Disconnected l <= if is_disconnect x then 1 else 0
  | None => True
  end.
Proof.
  destruct x as [a p tls [|]| | | | | | | | |[| | |]];
    break_client c; run_step_disc; auto.
Qed.

(** The worker never reports a disconnect on its own: over any schedule,
    the [NotifyDisconnected] calls are at most as many as the
    [Disconnect] calls of the owner. *)
Theorem Disconnected_only_on_request (cs : list System.Cmd)
    (c : UMQTTClient.t) :
  count_Disconnected (fst (System.run cs c)) <= count_disconnects cs.
Proof.
  unfold count_disconnects. revert c.
  induction cs as [|x cs IH]; intros c; [cbn; lia|].
  cbn [System.run filter].
  pose proof (step_Disconnected_bound x c) as Hstep.
  destruct (System.step x c) as [[c1 l1]|].
  - specialize (IH c1). destruct (System.run cs c1) as [l2 r].
    cbn [fst] in *. rewrite count_Disconnected_app.
    destruct (is_disconnect x); cbn [length]; lia.
  - cbn. lia.
Qed.

Lemma step_stays_connected (x : System.Cmd) (c : UMQTTClient.t) :
  worker_connected c = true ->
  is_disconnect x = false ->
  is_destroy x = false ->
  match System.step x c with
  | Some (c', l) => worker_connected c' = true /\ count_Connected l = 0
  | None => False
  end.
Proof.
  intros Hc Hx Hd.
  destruct x as [a p tls [|]| | | | | | | | |[| | |]];
    try discriminate Hx; try discriminate Hd;
    break_client c; try discriminate Hc; run_step; auto.
Qed.

(** A connected worker stays connected, and no further Connected
    notification is made, until the owner calls [Disconnect] or
    [BeginDestroy]: nothing else in the code clears the flag. *)
Theorem connection_persists (cs : list System.Cmd) (c : UMQTTClient.t) :
  worker_connected c = true ->
  forallb (fun x => negb (is_disconnect x) && negb (is_destroy x)) cs = true ->
  exists c',
    snd (System.run cs c) = Some c'
    /\ UMQTTClient.IsConnected c' = true
    /\ count_Connected (fst (System.run cs c)) = 0.
Proof.
  revert c. induction cs as [|x cs IH]; intros c Hc Hcs.
  - exists c. repeat split.
    unfold worker_connected in Hc. unfold UMQTTClient.IsConnected.
    destruct (UMQTTClient.worker c); [exact Hc|discriminate Hc].
  - cbn [forallb] in Hcs. apply andb_prop in Hcs as [Hx Hcs].
    apply andb_prop in Hx as [Hx Hd].
    apply negb_true_iff in Hx. apply negb_true_iff in Hd.
    pose proof (step_stays_connected x c Hc Hx Hd) as Hstep.
    cbn [System.run].
    destruct (System.step x c) as [[c1 l1]|]; [|contradiction].
    destruct Hstep as [Hc1 Hl1].
    destruct (IH c1 Hc1 Hcs) as (c' & Hr & Hi & Hn).
    destruct (System.run cs c1) as [l2 r]. cbn [fst snd] in *.
    exists c'. repeat split; try assumption.
    rewrite count_Connected_app. lia.
Qed.

Lemma connection_persists_witness :
  exists c',
    snd (System.run
           ([System.CallPublish "a" "1" 0%Z false;
             System.CallConnect EmptyString 1%Z true false;
             System.CallSubscribe "a" 2%Z]
            ++ System.iteration) connected_client) = Some c'
    /\ UMQTTClient.IsConnected c' = true.
Proof.
  destruct (connection_persists
              ([System.CallPublish "a" "1" 0%Z false;
                System.CallConnect EmptyString 1%Z true false;
                System.CallSubscribe "a" 2%Z]
               ++ System.iteration) connected_client)
    as (c' & H1 & H2 & _).
  - vm_compute. reflexivity.
  - reflexivity.
  - exists c'. split; assumption.
Defined.

(** ** IsConnected and the notifications *)








(** ** Every accepted message is echoed once, in order *)

Lemma echoed_app (l1 l2 : Log) : echoed (l1 ++ l2) = echoed l1 ++ echoed l2.
Proof. unfold echoed. apply flat_map_app. Qed.

Lemma echoed_echo th o (q : list FMQTTOutgoing) :
  echoed (map (echo th o) q) = contents q.
Proof.
  induction q as [|m q IH]; [reflexivity|].
  cbn. f_equal. exact IH.
Qed.

Lemma contents_app (q1 q2 : TQueue FMQTTOutgoing) :
  contents (q1 ++ q2) = contents q1 ++ contents q2.
Proof. unfold contents. apply map_app. Qed.

Ltac run_step_echo :=
  cbn -[FMQTTWorker.ProcessOutgoing echo echoed contents] in *;
  unfold UMQTTClient.forward in *;
  rewrite ?ProcessOutgoing_spec in *;
  cbn -[echo echoed contents] in *;
  rewrite ?app_nil_r, ?echoed_app, ?echoed_echo, ?contents_app in *;
  cbn in *;
  rewrite ?app_nil_r.

Lemma step_conserves_messages (x : System.Cmd) (c : UMQTTClient.t)
    (w : FMQTTWorker.t) :
  UMQTTClient.worker c = Some w ->
  is_destroy x = false ->
  match System.step x c with
  | Some (c', l) =>
      match UMQTTClient.worker c' with
      | Some w' =>
          echoed l ++ contents (FMQTTWorker.OutgoingMessages w')
          = contents (FMQTTWorker.OutgoingMessages w) ++ published [x]
      | None => False
      end
  | None => False
  end.
Proof.
  intros Hw Hx.
  destruct x as [a p tls [|]| | | | | | | | |[| | |]]; try discriminate Hx;
    break_client c; try discriminate Hw;
    cbn in Hw; inversion Hw; subst w; clear Hw;
    run_step_echo; auto.
Qed.

(** Messages are neither lost, nor duplicated, nor reordered.  For a
    client with a worker, over any schedule that does not destroy it:
    the messages echoed so far, followed by those still in the outgoing
    queue, are the messages queued at the start followed by those of the
    [Publish] calls, in order. *)
Theorem published_messages_echoed_once_in_order (cs : list System.Cmd)
    (c : UMQTTClient.t) (w : FMQTTWorker.t) :
  UMQTTClient.worker c = Some w ->
  forallb (fun x => negb (is_destroy x)) cs = true ->
  exists c' w',
    snd (System.run cs c) = Some c'
    /\ UMQTTClient.worker c' = Some w'
    /\ echoed (fst (System.run cs c))
       ++ contents (FMQTTWorker.OutgoingMessages w')
       = contents (FMQTTWorker.OutgoingMessages w) ++ published cs.
Proof.
  revert c w. induction cs as [|x cs IH]; intros c w Hw Hcs.
  - exists c, w. cbn. rewrite app_nil_r. auto.
  - cbn [forallb] in Hcs. apply andb_prop in Hcs as [Hx Hcs].
    apply negb_true_iff in Hx.
    pose proof (step_conserves_messages x c w Hw Hx) as Hstep.
    cbn [System.run].
    destruct (System.step x c) as [[c1 l1]|]; [|contradiction].
    destruct (UMQTTClient.worker c1) as [w1|] eqn:Hw1; [|contradiction].
    destruct (IH c1 w1 Hw1 Hcs) as (c' & w' & Hr & Hw' & Heq).
    destruct (System.run cs c1) as [l2 r]. cbn [fst snd] in *.
    exists c', w'. split; [exact Hr|]. split; [exact Hw'|].
    rewrite echoed_app, <- app_assoc, Heq, app_assoc, Hstep, <- app_assoc.
    f_equal. unfold published. cbn [flat_map]. rewrite app_nil_r.
    reflexivity.
Qed.

Lemma published_messages_echoed_once_in_order_witness :
  exists c' w',
    snd (System.run
           ([System.CallPublish "a" "1" 0%Z false]
            ++ System.iteration
            ++ [System.CallPublish "b" "2" 0%Z false;
                System.CallDisconnect true;
                System.CallPublish "c" "3" 0%Z false])
           connected_client) = Some c'
    /\ UMQTTClient.worker c' = Some w'
    /\ echoed
         (fst (System.run
                 ([System.CallPublish "a" "1" 0%Z false]
                  ++ System.iteration
                  ++ [System.CallPublish "b" "2" 0%Z false;
                      System.CallDisconnect true;
                      System.CallPublish "c" "3" 0%Z false])
                 connected_client))
       ++ contents (FMQTTWorker.OutgoingMessages w')
       = [("a", "1"); ("b", "2"); ("c", "3")].
Proof.
  apply (published_messages_echoed_once_in_order
           ([System.CallPublish "a" "1" 0%Z false]
            ++ System.iteration
            ++ [System.CallPublish "b" "2" 0%Z false;
                System.CallDisconnect true;
                System.CallPublish "c" "3" 0%Z false])
           connected_client
           (FMQTTWorker.mk Valid true (Some false) [] [] "127.0.0.1"
              1883%Z false EmptyString EmptyString EmptyString 60%Z
              false false true false)).
  - vm_compute. reflexivity.
  - reflexivity.
Defined.

(** ** Subscriptions *)

Lemma step_forget (x : System.Cmd) (c : UMQTTClient.t) :
  seen_step (System.step x (forget_client c)) = seen_step (System.step x c).
Proof.
  destruct x as [a p tls [|]| | | | | | | | |[| | |]];
    break_client c;
    first
      [ vm_compute; reflexivity
      | unfold seen_step, forget_client;
        cbn -[FMQTTWorker.ProcessOutgoing echo];
        unfold UMQTTClient.forward;
        rewrite ?ProcessOutgoing_spec;
        vm_compute; reflexivity ].
Qed.

Lemma step_subscription (x : System.Cmd) (c : UMQTTClient.t) :
  is_subscription x = true ->
  seen_step (System.step x c) = Some (forget_client c, []).
Proof.
  intros Hx.
  destruct x as [a p tls cr| | | | | | | | |b]; try discriminate Hx;
    break_client c; vm_compute; reflexivity.
Qed.

Lemma run_seen (cs : list System.Cmd) :
  forall c1 c2,
    forget_client c1 = forget_client c2 ->
    seen (System.run cs c1) = seen (System.run cs c2).
Proof.
  induction cs as [|x cs IH]; intros c1 c2 Hc.
  - unfold seen. cbn. rewrite Hc. reflexivity.
  - cbn [System.run].
    pose proof (step_forget x c1) as H1.
    pose proof (step_forget x c2) as H2.
    rewrite Hc, H2 in H1. clear H2.
    destruct (System.step x c1) as [[d1 l1]|],
             (System.step x c2) as [[d2 l2]|]; cbn in H1;
      try discriminate H1; [|reflexivity].
    inversion H1 as [[Hd Hl]]. specialize (IH d1 d2 (eq_sym Hd)).
    unfold seen in *.
    destruct (System.run cs d1) as [m1 r1], (System.run cs d2) as [m2 r2].
    cbn [fst snd] in *. inversion IH as [[Hm Hr]]. reflexivity.
Qed.

(** [Subscribe] and [Unsubscribe] have no effect that can be observed:
    removing all of them from a schedule changes neither the
    notifications, nor whether the run faults, nor the final client
    apart from its subscription queue and wake event. *)
Theorem subscriptions_are_not_observable (cs : list System.Cmd)
    (c : UMQTTClient.t) :
  seen (System.run cs c)
  = seen (System.run (filter (fun x => negb (is_subscription x)) cs) c).
Proof.
  revert c. induction cs as [|x cs IH]; intros c; [reflexivity|].
  cbn [filter]. destruct (is_subscription x) eqn:Hx; cbn [negb].
  - pose proof (step_subscription x c Hx) as Hs.
    cbn [System.run].
    destruct (System.step x c) as [[c1 l1]|]; [|discriminate Hs].
    cbn in Hs. inversion Hs as [[Hc Hl]].
    rewrite <- (run_seen _ c1 c Hc), <- IH.
    unfold seen. destruct (System.run cs c1) as [l2 r]. reflexivity.
  - cbn [System.run].
    destruct (System.step x c) as [[c1 l1]|]; [|reflexivity].
    specialize (IH c1). unfold seen in *.
    destruct (System.run cs c1) as [l2 r],
             (System.run (filter _ cs) c1) as [l3 r3].
    cbn [fst snd] in *. inversion IH as [[Hl Hr]]. reflexivity.
Qed.

(** ** Reconnecting *)

Lemma disconnect_then_connect (c : UMQTTClient.t) (w : FMQTTWorker.t)
    (bForce : bool) (h : FString) (p : int32) (tls created : bool) :
  running c w ->
  exists c2 w2,
    System.run [System.CallDisconnect bForce;
                System.CallConnect h p tls created] c
    = ((if FMQTTWorker.bConnected w
        then [mkNotifyCall GameThread
                (Disconnected "Client requested disconnect")
                (Get (FMQTTWorker.Owner w))]
        else []),
       Some c2)
    /\ running c2 w2
    /\ FMQTTWorker.Owner w2 = FMQTTWorker.Owner w
    /\ FMQTTWorker.bConnected w2 = false
    /\ FMQTTWorker.Host w2 = h
    /\ FMQTTWorker.OutgoingMessages w2 = FMQTTWorker.OutgoingMessages w.
Proof.
  intros (Hw & Ht & Hs).
  destruct c as [[[wk]|] ? ? ? ? ? ? ? ?]; cbn in Hw; [|discriminate].
  subst wk.
  destruct w as [? thr [?|] ? ? ? ? ? ? ? ? ? ? stop [|] ?];
    cbn in Ht, Hs; subst thr stop; vm_compute;
    do 2 eexists; repeat split.
Qed.

(** After a disconnect, a [Connect] with a non-empty host followed by
    one iteration of the worker connects again: exactly one Connected
    notification is made, from the worker thread, the client reports
    connected, and what was in the outgoing queue is echoed after it. *)
Theorem reconnect_after_disconnect (c : UMQTTClient.t) (w : FMQTTWorker.t)
    (bForce : bool) (h : FString) (p : int32) (tls created : bool) :
  running c w ->
  IsEmpty h = false ->
  exists c',
    snd (System.run
           ([System.CallDisconnect bForce; System.CallConnect h p tls created]
            ++ System.iteration) c) = Some c'
    /\ UMQTTClient.IsConnected c' = true
    /\ filter (fun e => negb (is_Disconnected e))
         (fst (System.run
                 ([System.CallDisconnect bForce;
                   System.CallConnect h p tls created]
                  ++ System.iteration) c))
       = mkNotifyCall WorkerThread Connected (Get (FMQTTWorker.Owner w))
         :: map (echo WorkerThread (FMQTTWorker.Owner w))
              (FMQTTWorker.OutgoingMessages w).
Proof.
  intros Hr Hh.
  destruct (disconnect_then_connect c w bForce h p tls created Hr)
    as (c2 & w2 & Hrun & Hr2 & Ho & Hc & Hhost & Hq).
  rewrite run_app, Hrun, (run_iteration c2 w2 Hr2). cbn [fst snd].
  destruct (RunBody_state WorkerThread w2) as (Hb & _).
  eexists. split; [reflexivity|]. split.
  - unfold UMQTTClient.IsConnected, UMQTTClient.worker.
    cbn [UMQTTClient.Impl UMQTTClient.set_Impl UMQTTClient.Worker].
    unfold FMQTTWorker.IsConnected.
    rewrite Hb, Hc, Hhost, Hh. reflexivity.
  - rewrite RunBody_log, Hc, Hhost, Hh, Ho, Hq. cbn [negb andb].
    rewrite filter_app.
    assert (He : forall q,
               filter (fun e => negb (is_Disconnected e))
                 (map (echo WorkerThread (FMQTTWorker.Owner w)) q)
               = map (echo WorkerThread (FMQTTWorker.Owner w)) q).
    { induction q as [|m q IH]; [reflexivity|]. cbn. rewrite IH.
      reflexivity. }
    destruct (FMQTTWorker.bConnected w); cbn; rewrite He; reflexivity.
Qed.

Lemma reconnect_after_disconnect_witness :
  exists c',
    snd (System.run
           ([System.CallDisconnect false;
             System.CallConnect "10.0.0.2" 8883%Z true false]
            ++ System.iteration) connected_client) = Some c'
    /\ UMQTTClient.IsConnected c' = true.
Proof.
  destruct (reconnect_after_disconnect connected_client
              (FMQTTWorker.mk Valid true (Some false) [] [] "127.0.0.1"
                 1883%Z false EmptyString EmptyString EmptyString 60%Z
                 false false true false)
              false "10.0.0.2" 8883%Z true false)
    as (c' & H1 & H2 & _).
  - vm_compute. repeat split.
  - reflexivity.
  - exists c'. split; assumption.
Defined.
